(** * fits2hdf: FITS I/O ([fits2hdf/io/fitsio.py])

    A shallow embedding of the FITS reader and writer of fits2hdf, and the
    properties of its header translation, its format-code table and its
    import and export loops. *)

From Stdlib Require Import String Ascii List NArith ZArith Bool Lia.
From Stdlib Require Import DecimalString.
Import ListNotations.

Open Scope list_scope.
Open Scope string_scope.

(** ** Python values, exceptions and results *)

(** Exceptions the embedded code can meet.  [UnsupportedTypeError] is the
    error the specification names for the format-code encoder. *)
Inductive exn : Type :=
| TypeError
| KeyError
| IndexError
| ValueError
| VerifyError
| UnsupportedTypeError.

(** The result of running a piece of Python code: a value or a raised
    exception. *)
Inductive outcome (A : Type) : Type :=
| Return (a : A)
| Raise (e : exn).
Arguments Return {A} a.
Arguments Raise {A} e.

Definition bind {A B : Type} (m : outcome A) (k : A -> outcome B) : outcome B :=
  match m with
  | Return a => k a
  | Raise e => Raise e
  end.

Notation "x <- m ;; k" := (bind m (fun x => k))
  (at level 61, m at next level, right associativity).

Definition exn_eqb (a b : exn) : bool :=
  match a, b with
  | TypeError, TypeError | KeyError, KeyError | IndexError, IndexError
  | ValueError, ValueError | VerifyError, VerifyError
  | UnsupportedTypeError, UnsupportedTypeError => true
  | _, _ => false
  end.

(** [try: body except e: handler]. *)
Definition try_except {A : Type} (body : outcome A) (e : exn)
    (handler : outcome A) : outcome A :=
  match body with
  | Return a => Return a
  | Raise e' => if exn_eqb e' e then handler else Raise e'
  end.

(** What a Python expression of type "string or None" evaluates to. *)
Inductive py_str : Type :=
| PyNone
| PyStr (s : string).

(** ["%i" % n] for a non-negative integer. *)
Definition fmt_i (n : N) : string := NilEmpty.string_of_uint (N.to_uint n).

(** ["%s" % v]: [None] prints as the word None. *)
Definition fmt_s (v : py_str) : string :=
  match v with
  | PyNone => "None"
  | PyStr s => s
  end.

(** ** numpy element types *)

(** [numpy_dtype.type].  The first fourteen are the keys of [dtype_dict];
    [string_] is the fixed-width text type; the rest are numpy scalar types
    the table has no entry for. *)
Inductive np_type : Type :=
| uint8 | uint16 | uint32 | uint64
| int8 | int16 | int32 | int64
| float16 | float32 | float64
| complex64 | complex128
| bool_
| string_
| unicode_ | object_ | void | datetime64 | timedelta64
| longdouble | clongdouble.

Record numpy_dtype : Type := mk_dtype {
  dtype_type : np_type;
  itemsize : N
}.

Definition np_type_is_string (t : np_type) : bool :=
  match t with string_ => true | _ => false end.

(** ** [fits_format_code_lookup] *)

Definition dtype_dict (t : np_type) : py_str :=
  match t with
  | uint8 => PyStr "B"
  | uint16 => PyStr "J"
  | uint32 => PyStr "K"
  | uint64 => PyStr "K"
  | int8 => PyStr "I"
  | int16 => PyStr "I"
  | int32 => PyStr "J"
  | int64 => PyStr "K"
  | float16 => PyStr "E"
  | float32 => PyStr "E"
  | float64 => PyStr "D"
  | complex64 => PyStr "C"
  | complex128 => PyStr "M"
  | bool_ => PyStr "L"
  | _ => PyNone
  end.

(** [numpy_shape[-1]], read only when the shape has more than one axis. *)
Definition last_axis (numpy_shape : list N) : N := last numpy_shape 1%N.

Definition fits_format_code_lookup (numpy_dtype : numpy_dtype)
    (numpy_shape : list N) : outcome py_str :=
  let np_type := dtype_type numpy_dtype in
  let fmt_len :=
    if (1 <? List.length numpy_shape)%nat then last_axis numpy_shape else 1%N in
  if np_type_is_string np_type then
    if (itemsize numpy_dtype =? 1)%N then Return (PyStr "A")
    else
      let fits_fmt := fmt_i (itemsize numpy_dtype) ++ "A" in
      Return (PyStr fits_fmt)
  else
    let fmt_code := dtype_dict np_type in
    if (fmt_len =? 1)%N then Return fmt_code
    else Return (PyStr (fmt_i fmt_len ++ fmt_s fmt_code)).

(** ** Strings the way Python slices and tests them *)

(** [s[:n]]. *)
Definition take (n : nat) (s : string) : string := substring 0 n s.

(** [s.endswith(suffix)]. *)
Definition endswith (s suffix : string) : bool :=
  (String.length suffix <=? String.length s)%nat &&
  String.eqb
    (substring (String.length s - String.length suffix) (String.length suffix) s)
    suffix.

(** The ASCII characters [str.strip()] removes: space, tab, line feed,
    vertical tab, form feed and carriage return. *)
Definition is_space (c : ascii) : bool :=
  let n := nat_of_ascii c in
  (n =? 32)%nat || ((9 <=? n)%nat && (n <=? 13)%nat).

Fixpoint lstrip (s : string) : string :=
  match s with
  | EmptyString => EmptyString
  | String c s' => if is_space c then lstrip s' else s
  end.

Fixpoint rstrip (s : string) : string :=
  match s with
  | EmptyString => EmptyString
  | String c s' =>
      match rstrip s' with
      | EmptyString => if is_space c then EmptyString else String c EmptyString
      | r => String c r
      end
  end.

(** [s.strip()]. *)
Definition strip (s : string) : string := rstrip (lstrip s).

(** [x in (...)] and [x in {...}] for strings. *)
Definition str_in (x : string) (l : list string) : bool :=
  existsb (String.eqb x) l.

(** ** Header values, cards and dictionaries *)

(** The value of a header card or of a header entry. *)
Inductive value : Type :=
| VNone
| VBool (b : bool)
| VInt (z : Z)
| VStr (s : string).

(** One card of a FITS header: [(card_id, card_val, card_comment)]. *)
Definition card : Type := (string * value * value)%type.

Definition card_key (c : card) : string := fst (fst c).

(** A Python [dict] with string keys: the items in insertion order, no key
    twice. *)
Definition dict (V : Type) : Type := list (string * V).

(** [d.get(k)]. *)
Fixpoint dict_get {V : Type} (d : dict V) (k : string) : option V :=
  match d with
  | [] => None
  | (k', v) :: d' => if String.eqb k k' then Some v else dict_get d' k
  end.

(** [d[k] = v]: a key already there keeps its place and takes the new value,
    a new key goes to the end. *)
Fixpoint dict_set {V : Type} (d : dict V) (k : string) (v : V) : dict V :=
  match d with
  | [] => [(k, v)]
  | (k', v') :: d' =>
      if String.eqb k k' then (k', v) :: d' else (k', v') :: dict_set d' k v
  end.

Definition keys {V : Type} (d : dict V) : list string := map fst d.

(** [d[k] = v] for a pair [(k, v)]. *)
Definition dict_update {V : Type} (d : dict V) (p : string * V) : dict V :=
  dict_set d (fst p) (snd p).

(** A list of keywords that are mandatory to FITS, but should always be
    calculated by the writing program from the data model. *)
Definition restricted_header_keywords : list string :=
  ["XTENSION"; "BITPIX"; "SIMPLE"; "PCOUNT"; "GCOUNT";
   "GROUPS"; "EXTEND"; "TFIELDS"; "EXTNAME"].

Definition restricted_table_keywords : list string :=
  ["TDISP"; "TUNIT"; "TTYPE"; "TFORM"; "TBCOL";
   "TNULL"; "TSCAL"; "TZERO"; "NAXIS"].

(** ** Arrays, tables and FITS units *)

(** A numpy array: element type, shape and the elements in storage order. *)
Record ndarray : Type := mk_ndarray {
  arr_dtype : numpy_dtype;
  arr_shape : list N;
  arr_items : list value
}.

(** A column of a table: [col.name], [col.unit], [col.data]; [col.dtype] and
    [col.shape] are those of the data. *)
Record Column : Type := mk_Column {
  col_name : string;
  col_unit : py_str;
  col_data : ndarray
}.

Definition col_dtype (c : Column) : numpy_dtype := arr_dtype (col_data c).
Definition col_shape (c : Column) : list N := arr_shape (col_data c).

Definition Table : Type := list Column.

(** [pf.Column(name=, format=, unit=, array=)]. *)
Record FitsColumn : Type := mk_FitsColumn {
  fc_name : string;
  fc_format : py_str;
  fc_unit : py_str;
  fc_array : ndarray
}.

(** What the [data] attribute of a unit holds: nothing, an array, rows (the
    record data of a random-groups unit, or a table), or the column
    definitions a binary table was made from. *)
Inductive payload : Type :=
| PNone
| PArray (a : ndarray)
| PRows (t : Table)
| PColumns (cols : list FitsColumn).

(** The classes of FITS units [read_fits] tells apart.  [GroupsHDU] is a
    subclass of [PrimaryHDU]. *)
Inductive hdu_class : Type :=
| PrimaryHDU
| GroupsHDU
| ImageHDU
| CompImageHDU
| BinTableHDU.

(** [isinstance(hdul_fits, ImageHDU) or isinstance(hdul_fits, PrimaryHDU)]. *)
Definition is_image_or_primary (c : hdu_class) : bool :=
  match c with
  | ImageHDU | PrimaryHDU | GroupsHDU => true
  | _ => false
  end.

Definition is_compHDU (c : hdu_class) : bool :=
  match c with CompImageHDU => true | _ => false end.

(** A unit of a FITS document as the codec hands it over: its class, its
    name, the cards of its header, and what reading [size] and [data] gives,
    either of which the codec may answer with an exception. *)
Record FitsHdu : Type := mk_FitsHdu {
  hdu_kind : hdu_class;
  hdu_name : string;
  hdu_cards : list card;
  hdu_size : outcome N;
  hdu_is_image : bool;
  hdu_data : outcome payload
}.

Definition HDUList : Type := list FitsHdu.

Definition set_name (h : FitsHdu) (name : string) : FitsHdu :=
  mk_FitsHdu (hdu_kind h) name (hdu_cards h) (hdu_size h) (hdu_is_image h)
    (hdu_data h).

Definition set_cards (h : FitsHdu) (cs : list card) : FitsHdu :=
  mk_FitsHdu (hdu_kind h) (hdu_name h) cs (hdu_size h) (hdu_is_image h)
    (hdu_data h).

(** Bytes an array takes: the element size times the number of elements. *)
Definition nbytes (a : ndarray) : N :=
  (itemsize (arr_dtype a) * fold_right N.mul 1 (arr_shape a))%N.

Definition payload_size (d : payload) : N :=
  match d with
  | PArray a => nbytes a
  | PRows t => fold_right (fun c n => (nbytes (col_data c) + n)%N) 0%N t
  | PColumns cols => fold_right (fun c n => (nbytes (fc_array c) + n)%N) 0%N cols
  | PNone => 0%N
  end.

(** [hdu.data = d]. *)
Definition set_data (h : FitsHdu) (d : payload) : FitsHdu :=
  mk_FitsHdu (hdu_kind h) (hdu_name h) (hdu_cards h)
    (Return (payload_size d)) (hdu_is_image h) (Return d).

(** [x[:]]: [None] cannot be sliced. *)
Definition slice_all (d : payload) : outcome payload :=
  match d with
  | PNone => Raise TypeError
  | _ => Return d
  end.

(** The units the codec makes anew carry the cards that are mandatory for
    their kind.  The cards the codec derives from the name and the data of a
    unit ([EXTNAME], [NAXISn], [TTYPEn], [TFORMn], [TUNITn]) are left out:
    each of them is a structural keyword or has a table-derived prefix, and
    neither the header export nor the header import keeps such a card. *)

(** [pf.PrimaryHDU()]: an empty primary unit. *)
Definition new_PrimaryHDU : FitsHdu :=
  mk_FitsHdu PrimaryHDU "PRIMARY"
    [("SIMPLE", VBool true, VStr "conforms to FITS standard");
     ("BITPIX", VInt 8, VStr "array data type");
     ("NAXIS", VInt 0, VStr "number of array dimensions");
     ("EXTEND", VBool true, VStr "")]
    (Return 0%N) true (Return PNone).

(** [pf.ImageHDU()]: an empty image extension. *)
Definition new_ImageHDU : FitsHdu :=
  mk_FitsHdu ImageHDU ""
    [("XTENSION", VStr "IMAGE", VStr "Image extension");
     ("BITPIX", VInt 8, VStr "array data type");
     ("NAXIS", VInt 0, VStr "number of array dimensions");
     ("PCOUNT", VInt 0, VStr "number of parameters");
     ("GCOUNT", VInt 1, VStr "number of groups")]
    (Return 0%N) true (Return PNone).

(** [pf.BinTableHDU.from_columns(pf.ColDefs(fits_cols))]. *)
Definition BinTableHDU_from_columns (fits_cols : list FitsColumn) : FitsHdu :=
  mk_FitsHdu BinTableHDU ""
    [("XTENSION", VStr "BINTABLE", VStr "binary table extension");
     ("BITPIX", VInt 8, VStr "array data type");
     ("NAXIS", VInt 2, VStr "number of array dimensions");
     ("PCOUNT", VInt 0, VStr "number of group parameters");
     ("GCOUNT", VInt 1, VStr "number of groups");
     ("TFIELDS", VInt (Z.of_nat (List.length fits_cols)),
      VStr "number of table fields")]
    (Return (payload_size (PColumns fits_cols))) false
    (Return (PColumns fits_cols)).

(** ** The container model

    Modelled from the spec: the classes of [fits2hdf/idi.py] ([IdiHdulist],
    [IdiPrimaryHdu], [IdiImageHdu], [IdiTableHdu] and the [add_*_hdu]
    methods) are imported by [fitsio.py] and not defined in it.  A unit is one
    of three variants, each with a header (the [entries] mapping), a history
    and a comment sequence; image and table units carry data; the container
    is an ordered mapping from unit name to unit. *)
Inductive IdiHdu : Type :=
| IdiPrimaryHdu (name : string) (header : dict value)
    (history comment : list value)
| IdiImageHdu (name : string) (data : payload) (header : dict value)
    (history comment : list value)
| IdiTableHdu (name : string) (data : payload) (header : dict value)
    (history comment : list value).

Definition idi_header (u : IdiHdu) : dict value :=
  match u with
  | IdiPrimaryHdu _ h _ _ | IdiImageHdu _ _ h _ _ | IdiTableHdu _ _ h _ _ => h
  end.

Definition idi_history (u : IdiHdu) : list value :=
  match u with
  | IdiPrimaryHdu _ _ h _ | IdiImageHdu _ _ _ h _ | IdiTableHdu _ _ _ h _ => h
  end.

Definition idi_comment (u : IdiHdu) : list value :=
  match u with
  | IdiPrimaryHdu _ _ _ c | IdiImageHdu _ _ _ _ c | IdiTableHdu _ _ _ _ c => c
  end.

Definition idi_data (u : IdiHdu) : payload :=
  match u with
  | IdiPrimaryHdu _ _ _ _ => PNone
  | IdiImageHdu _ d _ _ _ | IdiTableHdu _ d _ _ _ => d
  end.

(** Modelled from the spec: [IdiHdulist] of [fits2hdf/idi.py], the
    container model: the FITS document it was read from ([hdul_idi.fits]) and
    the units by name, in the order they were added. *)
Record IdiHdulist : Type := mk_IdiHdulist {
  fits : HDUList;
  units : dict IdiHdu
}.

(** Modelled from the spec: [IdiHdulist.add_primary_hdu] of
    [fits2hdf/idi.py]; the unit is stored under its name with the header,
    history and comment given by keyword. *)
Definition add_primary_hdu (hdul_idi : dict IdiHdu) (name : string)
    (header : dict value) (history comment : list value) : dict IdiHdu :=
  dict_set hdul_idi name (IdiPrimaryHdu name header history comment).

(** Modelled from the spec: [IdiHdulist.add_image_hdu] of
    [fits2hdf/idi.py]. *)
Definition add_image_hdu (hdul_idi : dict IdiHdu) (name : string)
    (data : payload) (header : dict value) (history comment : list value)
    : dict IdiHdu :=
  dict_set hdul_idi name (IdiImageHdu name data header history comment).

(** Modelled from the spec: [IdiHdulist.add_table_hdu] of
    [fits2hdf/idi.py]. *)
Definition add_table_hdu (hdul_idi : dict IdiHdu) (name : string)
    (header : dict value) (data : payload) (history comment : list value)
    : dict IdiHdu :=
  dict_set hdul_idi name (IdiTableHdu name data header history comment).

(** ** Header cards as the codec writes them *)

(** [header[key] = (value, comment)]: a card of that name is updated where it
    stands, a new name is appended. *)
Fixpoint header_set (cards : list card) (key : string) (val comment : value)
    : list card :=
  match cards with
  | [] => [(key, val, comment)]
  | c :: cards' =>
      if String.eqb key (card_key c) then (key, val, comment) :: cards'
      else c :: header_set cards' key val comment
  end.

(** [header.add_history(line)] and [header.add_comment(line)] on a header
    whose cards are in writing order. *)
Definition add_history (cards : list card) (line : value) : list card :=
  (cards ++ [("HISTORY", line, VStr "")])%list.

Definition add_comment (cards : list card) (line : value) : list card :=
  (cards ++ [("COMMENT", line, VStr "")])%list.

(** ** Time stamps *)

Record datetime : Type := mk_datetime {
  year : N;
  month : N;
  day : N;
  hour : N;
  minute : N;
  second : N
}.

(** A number in decimal, padded with zeros to [width] digits. *)
Definition zero_pad (width : nat) (n : N) : string :=
  let s := fmt_i n in
  (fix pad (k : nat) : string :=
     match k with
     | O => s
     | S k' => String "0" (pad k')
     end) (width - String.length s)%nat.

(** One directive of [strftime]. *)
Definition strftime_directive (c : ascii) (t : datetime) : string :=
  if Ascii.eqb c "Y" then zero_pad 4 (year t)
  else if Ascii.eqb c "m" then zero_pad 2 (month t)
  else if Ascii.eqb c "d" then zero_pad 2 (day t)
  else if Ascii.eqb c "H" then zero_pad 2 (hour t)
  else if Ascii.eqb c "M" then zero_pad 2 (minute t)
  else if Ascii.eqb c "S" then zero_pad 2 (second t)
  else String "%" (String c EmptyString).

(** [t.strftime(fmt)] for the directives above. *)
Fixpoint strftime (t : datetime) (fmt : string) : string :=
  match fmt with
  | EmptyString => EmptyString
  | String c rest =>
      if Ascii.eqb c "%" then
        match rest with
        | String d rest' => strftime_directive d t ++ strftime t rest'
        | EmptyString => String c EmptyString
        end
      else String c (strftime t rest)
  end.

(** ** The functions of [fitsio.py] *)

Section FitsIO.

(** What the FITS codec and the unit translator do is not in [fitsio.py]:
    the repair pass of [verify('fix')] on the cards of a unit, the checks
    of [verify()] on a unit and on a document, the table reader
    [Table.read(infile, hdu=name)], and
    [unit_conversion.units_to_fits]. *)
Variable verify_fix : list card -> list card.
Variable hdu_verify : FitsHdu -> outcome unit.
Variable hdulist_verify : HDUList -> outcome unit.
Variable Table_read : HDUList -> string -> outcome Table.
Variable units_to_fits : py_str -> py_str.

(** [hdu.verify('fix')]. *)
Definition fix_unit (h : FitsHdu) : FitsHdu :=
  set_cards h (verify_fix (hdu_cards h)).

(** *** [write_headers] *)

(** The body of the loop over [idiobj.header.items()]. *)
Definition write_header_item (idi_hdr : dict value) (cards : list card)
    (item : string * value) : list card :=
  let '(key, val) := item in
  let comment :=
    match dict_get idi_hdr (key ++ "_COMMENT") with
    | Some c => c
    | None => VStr ""
    end in
  let is_comment := endswith key "_COMMENT" in
  let is_table := str_in (take 5 key) restricted_table_keywords in
  let is_table :=
    is_table || String.eqb (take 4 key) "TDIM" || String.eqb key "TFIELDS" in
  let is_basic := str_in key restricted_header_keywords in
  if is_comment || is_table || is_basic then cards
  else header_set cards key val comment.

Definition write_headers (hduobj : FitsHdu) (idiobj : IdiHdu) : FitsHdu :=
  let cards := hdu_cards hduobj in
  let cards :=
    fold_left (write_header_item (idi_header idiobj)) (idi_header idiobj)
      cards in
  let cards := fold_left add_history (idi_history idiobj) cards in
  let cards := fold_left add_comment (idi_comment idiobj) cards in
  fix_unit (set_cards hduobj cards).

(** *** [parse_fits_header] *)

(** The body of the loop over [hdul.header.cards]; the state is
    [(header, comment, history)]. *)
Definition parse_card (st : dict value * list value * list value)
    (c : card) : dict value * list value * list value :=
  let '(header, comment, history) := st in
  let '(card_id, card_val, card_comment) := c in
  let card_id := strip card_id in
  let comment_id := card_id ++ "_COMMENT" in
  if str_in card_id [""; " "] then (header, comment, history)
  else if str_in card_id restricted_header_keywords then
    (header, comment, history)
  else if str_in (take 5 card_id) restricted_table_keywords then
    (header, comment, history)
  else if String.eqb card_id "HISTORY" then
    (header, comment, (history ++ [card_val])%list)
  else if String.eqb card_id "COMMENT" then
    (header, (comment ++ [card_val])%list, history)
  else
    let header := dict_set header card_id card_val in
    let header := dict_set header comment_id card_comment in
    (header, comment, history).

(** Returns [(header, comment, history)], in that order. *)
Definition parse_fits_header (hdul : FitsHdu)
    : dict value * list value * list value :=
  let history := [] in
  let comment := [] in
  let header := [] in
  let hdul := fix_unit hdul in
  fold_left parse_card (hdu_cards hdul) (header, comment, history).

(** *** [read_fits] *)

(** The body of the [try] in the branch for image and primary units. *)
Definition build_image_unit (hdul_idi : dict IdiHdu) (hdul_fits : FitsHdu)
    (header : dict value) (history comment : list value)
    : outcome (dict IdiHdu) :=
  size <- hdu_size hdul_fits ;;
  if (size =? 0)%N then
    Return (add_primary_hdu hdul_idi (hdu_name hdul_fits)
              header history comment)
  else if hdu_is_image hdul_fits then
    d <- hdu_data hdul_fits ;;
    data <- slice_all d ;;
    Return (add_image_hdu hdul_idi (hdu_name hdul_fits) data
              header history comment)
  else
    d <- hdu_data hdul_fits ;;
    data <- slice_all d ;;
    Return (add_table_hdu hdul_idi (hdu_name hdul_fits) header data
              history comment).

(** The name step at the top of the loop: a blank name is replaced by
    [HDU<ii>] and [ii] advances. *)
Definition default_name (ii : N) (hdul_fits : FitsHdu) : FitsHdu * N :=
  if str_in (hdu_name hdul_fits) [""; " "] then
    (set_name hdul_fits ("HDU" ++ fmt_i ii), (ii + 1)%N)
  else (hdul_fits, ii).

(** One turn of the loop over the units of the document.  [infile] is the
    document as it is on file; the result is the counter, the unit as the
    loop leaves it, and the container. *)
Definition read_fits_unit (infile : HDUList) (ii : N)
    (hdul_idi : dict IdiHdu) (hdul_fits : FitsHdu)
    : outcome (N * FitsHdu * dict IdiHdu) :=
  let '(hdul_fits, ii) := default_name ii hdul_fits in
  let '(header, history, comment) := parse_fits_header hdul_fits in
  let hdul_fits := fix_unit hdul_fits in
  if is_image_or_primary (hdu_kind hdul_fits) then
    hdul_idi <-
      try_except
        (build_image_unit hdul_idi hdul_fits header history comment)
        TypeError
        (Return (add_primary_hdu hdul_idi (hdu_name hdul_fits)
                   header history comment)) ;;
    Return (ii, hdul_fits, hdul_idi)
  else if is_compHDU (hdu_kind hdul_fits) then
    d <- hdu_data hdul_fits ;;
    data <- slice_all d ;;
    Return (ii, hdul_fits,
            add_image_hdu hdul_idi (hdu_name hdul_fits) data
              header history comment)
  else
    tbl_data <- Table_read infile (hdu_name hdul_fits) ;;
    (* [IdiTableHdu(hdul_fits.name, tbl_data)] *)
    let idi_tbl := PRows tbl_data in
    Return (ii, hdul_fits,
            add_table_hdu hdul_idi (hdu_name hdul_fits) header idi_tbl
              history comment).

Fixpoint read_fits_loop (infile : HDUList) (todo : HDUList) (ii : N)
    (seen : HDUList) (hdul_idi : dict IdiHdu) : outcome IdiHdulist :=
  match todo with
  | [] => Return (mk_IdiHdulist seen hdul_idi)
  | hdul_fits :: todo' =>
      r <- read_fits_unit infile ii hdul_idi hdul_fits ;;
      let '(ii, hdul_fits, hdul_idi) := r in
      read_fits_loop infile todo' ii (seen ++ [hdul_fits])%list hdul_idi
  end.

(** [read_fits(infile)], with [ff = pf.open(infile)] given. *)
Definition read_fits (ff : HDUList) : outcome IdiHdulist :=
  let ii := 0%N in
  read_fits_loop ff ff ii [] [].

(** *** [create_fits] *)

(** [idiobj[cn]]: the column of that name. *)
Fixpoint table_getitem (t : Table) (cn : string) : outcome Column :=
  match t with
  | [] => Raise KeyError
  | col :: t' =>
      if String.eqb cn (col_name col) then Return col
      else table_getitem t' cn
  end.

(** The loop over [idiobj.colnames] that builds [fits_cols]. *)
Fixpoint make_fits_cols (t : Table) (colnames : list string)
    (fits_cols : list FitsColumn) : outcome (list FitsColumn) :=
  match colnames with
  | [] => Return fits_cols
  | cn :: colnames' =>
      col <- table_getitem t cn ;;
      fits_fmt <- fits_format_code_lookup (col_dtype col) (col_shape col) ;;
      let fits_unit := units_to_fits (col_unit col) in
      let fits_col :=
        mk_FitsColumn (col_name col) fits_fmt fits_unit (col_data col) in
      make_fits_cols t colnames' (fits_cols ++ [fits_col])%list
  end.

(** One turn of the loop over [hdul.items()]. *)
Definition create_fits_unit (hdulist : HDUList) (item : string * IdiHdu)
    : outcome HDUList :=
  let '(name, idiobj) := item in
  match idiobj with
  | IdiPrimaryHdu _ _ _ _ =>
      let new_hdu := new_PrimaryHDU in
      let new_hdu := write_headers new_hdu idiobj in
      Return (new_hdu :: hdulist)
  | IdiImageHdu _ data _ _ _ =>
      if String.eqb name "PRIMARY" then
        let new_hdu := new_PrimaryHDU in
        let new_hdu := write_headers new_hdu idiobj in
        let new_hdu := set_data new_hdu data in
        Return (new_hdu :: hdulist)
      else
        let new_hdu := new_ImageHDU in
        let new_hdu := write_headers new_hdu idiobj in
        let new_hdu := set_data new_hdu data in
        let new_hdu := set_name new_hdu name in
        Return (hdulist ++ [new_hdu])%list
  | IdiTableHdu _ data _ _ _ =>
      (* [idiobj.colnames] and [idiobj[cn]] are those of the rows the
         table unit holds; data of another form has no columns *)
      match data with
      | PRows t =>
          fits_cols <- make_fits_cols t (map col_name t) [] ;;
          let new_hdu := BinTableHDU_from_columns fits_cols in
          let new_hdu := write_headers new_hdu idiobj in
          let new_hdu := set_name new_hdu name in
          _ <- hdu_verify new_hdu ;;
          let hdulist := (hdulist ++ [new_hdu])%list in
          _ <- hdulist_verify hdulist ;;
          Return hdulist
      | _ => Raise TypeError
      end
  end.

Fixpoint create_fits_loop (items : list (string * IdiHdu))
    (hdulist : HDUList) : outcome HDUList :=
  match items with
  | [] => Return hdulist
  | item :: items' =>
      hdulist <- create_fits_unit hdulist item ;;
      create_fits_loop items' hdulist
  end.

(** The line stamped on the first unit. *)
Definition creation_line (now : datetime) : string :=
  let now_str := strftime now "%Y-%M-%dT%H:%M" in
  "File written by fits2hdf " ++ now_str.

(** [create_fits(hdul)], with [datetime.now()] given as [now]. *)
Definition create_fits (hdul : IdiHdulist) (now : datetime)
    : outcome HDUList :=
  hdulist <- create_fits_loop (units hdul) [] ;;
  match hdulist with
  | [] => Raise IndexError
  | first :: rest =>
      Return
        (set_cards first
           (add_history (hdu_cards first) (VStr (creation_line now)))
         :: rest)
  end.

End FitsIO.

(** ** Vocabulary of the specification *)

(** The fixed table of the type-code translator, as the specification lists
    it. *)
Definition claimed_codes : list (np_type * string) :=
  [(uint8, "B"); (int8, "I"); (int16, "I"); (uint16, "J"); (int32, "J");
   (uint32, "K"); (uint64, "K"); (int64, "K"); (float16, "E");
   (float32, "E"); (float64, "D"); (complex64, "C"); (complex128, "M");
   (bool_, "L")].

(** The fixed format-code alphabet. *)
Definition format_alphabet : list string :=
  ["L"; "X"; "B"; "I"; "J"; "K"; "A"; "E"; "D"; "C"; "M"; "P"; "Q"].

Definition is_digit (c : ascii) : bool :=
  let n := nat_of_ascii c in (48 <=? n)%nat && (n <=? 57)%nat.

Fixpoint drop_digits (s : string) : string :=
  match s with
  | EmptyString => EmptyString
  | String c s' => if is_digit c then drop_digits s' else s
  end.

(** A format code: an optional decimal repeat count, then one letter of the
    alphabet. *)
Definition is_format_code (s : string) : bool :=
  str_in (drop_digits s) format_alphabet.

(** The keys [write_headers] does not write: [_COMMENT] companions, the
    table-derived prefixes, the [TDIM] prefix, [TFIELDS], and the structural
    keywords. *)
Definition export_skips (key : string) : bool :=
  endswith key "_COMMENT"
  || str_in (take 5 key) restricted_table_keywords
  || String.eqb (take 4 key) "TDIM"
  || String.eqb key "TFIELDS"
  || str_in key restricted_header_keywords.

(** The comment paired with a key: [entries[key + "_COMMENT"]], empty when
    absent. *)
Definition paired_comment (entries : dict value) (key : string) : value :=
  match dict_get entries (key ++ "_COMMENT") with
  | Some c => c
  | None => VStr ""
  end.

(** The user entries of a header as triples [(key, value, comment)], in the
    order of the entries. *)
Definition user_entries (entries : dict value) : list card :=
  map (fun kv => (fst kv, snd kv, paired_comment entries (fst kv)))
    (filter (fun kv => negb (export_skips (fst kv))) entries).

Definition history_card (line : value) : card := ("HISTORY", line, VStr "").
Definition comment_card (line : value) : card := ("COMMENT", line, VStr "").

(** The card names [parse_fits_header] drops. *)
Definition import_drops (card_id : string) : bool :=
  str_in card_id [""; " "]
  || str_in card_id restricted_header_keywords
  || str_in (take 5 card_id) restricted_table_keywords.

(** A unit name [read_fits] replaces. *)
Definition is_blank (name : string) : bool := str_in name [""; " "].

(** How many units of a list have a blank name. *)
Fixpoint count_blank (l : HDUList) : N :=
  match l with
  | [] => 0%N
  | h :: l' =>
      ((if is_blank (hdu_name h) then 1 else 0) + count_blank l')%N
  end.

(** ** A codec with nothing to repair

    The instances at which the theorems below are evaluated: card lists that
    need no repair, verification that passes, unit tokens written as they
    are, and a table reader that returns the columns of the unit of the given
    name. *)
Definition no_fix (cs : list card) : list card := cs.

Definition verify_ok (h : FitsHdu) : outcome unit := Return tt.

Definition hdulist_verify_ok (l : HDUList) : outcome unit := Return tt.

Definition same_unit (u : py_str) : py_str := u.

Definition column_of_fits (c : FitsColumn) : Column :=
  mk_Column (fc_name c) (fc_unit c) (fc_array c).

Fixpoint read_table_by_name (infile : HDUList) (name : string)
    : outcome Table :=
  match infile with
  | [] => Raise KeyError
  | h :: infile' =>
      if String.eqb name (hdu_name h) then
        match hdu_data h with
        | Return (PColumns cols) => Return (map column_of_fits cols)
        | Return (PRows t) => Return t
        | Return _ => Raise ValueError
        | Raise e => Raise e
        end
      else read_table_by_name infile' name
  end.

(** ** Vocabulary of the header import *)

Definition card_val (c : card) : value := snd (fst c).

(** [header[key] = (value, comment)] for a triple. *)
Definition set_triple (cards : list card) (t : card) : list card :=
  header_set cards (fst (fst t)) (snd (fst t)) (snd t).

(** The values of the cards named [HISTORY], and of those named [COMMENT],
    in card order. *)
Definition history_lines (cs : list card) : list value :=
  map card_val
    (filter (fun c => String.eqb (strip (card_key c)) "HISTORY") cs).

Definition comment_lines (cs : list card) : list value :=
  map card_val
    (filter (fun c => String.eqb (strip (card_key c)) "COMMENT") cs).

(** The loop of [parse_fits_header] from its empty start. *)
Definition parse_cards (cs : list card)
    : dict value * list value * list value :=
  fold_left parse_card cs ([], [], []).

(** The two entries a user card becomes. *)
Definition entry_pairs (t : card) : dict value :=
  [(card_key t, card_val t); (card_key t ++ "_COMMENT", snd t)].

(** A card name that [parse_fits_header] stores under itself: free of
    surrounding blanks, not dropped, and neither [HISTORY] nor [COMMENT]. *)
Definition user_key (k : string) : bool :=
  String.eqb (strip k) k
  && negb (import_drops k)
  && negb (String.eqb k "HISTORY")
  && negb (String.eqb k "COMMENT").

(** ** Vocabulary of the round trip *)

Inductive unit_variant : Type :=
| Primary
| Image
| TableUnit.

Definition idi_variant (u : IdiHdu) : unit_variant :=
  match u with
  | IdiPrimaryHdu _ _ _ _ => Primary
  | IdiImageHdu _ _ _ _ _ => Image
  | IdiTableHdu _ _ _ _ _ => TableUnit
  end.











(** The unit [create_fits] makes of an item, before it is placed. *)
Definition exported_unit (verify_fix : list card -> list card)
    (units_to_fits : py_str -> py_str) (item : string * IdiHdu)
    : outcome FitsHdu :=
  match snd item with
  | IdiPrimaryHdu _ _ _ _ =>
      Return (write_headers verify_fix new_PrimaryHDU (snd item))
  | IdiImageHdu _ d _ _ _ =>
      if String.eqb (fst item) "PRIMARY" then
        Return (set_data (write_headers verify_fix new_PrimaryHDU (snd item)) d)
      else
        Return (set_name
                  (set_data (write_headers verify_fix new_ImageHDU (snd item))
                     d)
                  (fst item))
  | IdiTableHdu _ d _ _ _ =>
      match d with
      | PRows t =>
          fits_cols <- make_fits_cols units_to_fits t (map col_name t) [] ;;
          Return (set_name
                    (write_headers verify_fix
                       (BinTableHDU_from_columns fits_cols) (snd item))
                    (fst item))
      | _ => Raise TypeError
      end
  end.

(** The items [create_fits] puts in front of the document. *)
Definition goes_first (item : string * IdiHdu) : bool :=
  match snd item with
  | IdiPrimaryHdu _ _ _ _ => true
  | IdiImageHdu _ _ _ _ _ => String.eqb (fst item) "PRIMARY"
  | IdiTableHdu _ _ _ _ _ => false
  end.

(** [hdulist[0].header.add_history(line)]. *)
Definition stamp (line : string) (h : FitsHdu) : FitsHdu :=
  set_cards h (add_history (hdu_cards h) (VStr line)).

(** The column definition [create_fits] makes of a column of a table. *)
Definition column_exported (units_to_fits : py_str -> py_str) (col : Column)
    (fc : FitsColumn) : Prop :=
  fc_name fc = col_name col
  /\ fits_format_code_lookup (col_dtype col) (col_shape col)
     = Return (fc_format fc)
  /\ fc_unit fc = units_to_fits (col_unit col)
  /\ fc_array fc = col_data col.







(** ** Documents the theorems are evaluated at *)

(** A document with three blank-named units among named ones. *)
Definition blank_names_document : HDUList :=
  [mk_FitsHdu PrimaryHDU "PRIMARY" [("SIMPLE", VBool true, VStr "")]
     (Return 0%N) true (Return PNone);
   mk_FitsHdu ImageHDU "" [("XTENSION", VStr "IMAGE", VStr "")]
     (Return 4%N) true
     (Return (PArray (mk_ndarray (mk_dtype int16 2) [2%N] [VInt 1; VInt 2])));
   mk_FitsHdu ImageHDU "SCI" [("XTENSION", VStr "IMAGE", VStr "")]
     (Return 0%N) true (Return PNone);
   mk_FitsHdu CompImageHDU " " [("XTENSION", VStr "BINTABLE", VStr "")]
     (Return 2%N) true
     (Return (PArray (mk_ndarray (mk_dtype uint8 1) [2%N] [VInt 7; VInt 9])));
   mk_FitsHdu ImageHDU "" [("XTENSION", VStr "IMAGE", VStr "")]
     (Return 0%N) true (Return PNone)].

Definition blank_names_import : IdiHdulist :=
  Eval vm_compute in
    match read_fits no_fix read_table_by_name blank_names_document with
    | Return doc => doc
    | Raise _ => mk_IdiHdulist [] []
    end.

(** A primary unit with two history cards and one comment card. *)
Definition lines_document : HDUList :=
  [mk_FitsHdu PrimaryHDU "PRIMARY"
     [("SIMPLE", VBool true, VStr "");
      ("HISTORY", VStr "bias subtracted", VStr "");
      ("COMMENT", VStr "raw frame", VStr "");
      ("HISTORY", VStr "flat fielded", VStr "")]
     (Return 0%N) true (Return PNone)].

(** A container with one empty primary unit. *)
Definition empty_primary : IdiHdulist :=
  mk_IdiHdulist [] [("PRIMARY", IdiPrimaryHdu "PRIMARY" [] [] [])].

(** 5 March 2014, 10:42:07. *)
Definition march_morning : datetime := mk_datetime 2014 3 5 10 42 7.

(** A container with an image in the primary slot, an image extension and
    a table of two columns. *)
Definition survey : IdiHdulist :=
  mk_IdiHdulist []
    [("PRIMARY",
      IdiImageHdu "PRIMARY"
        (PArray (mk_ndarray (mk_dtype int16 2) [2%N; 2%N]
                   [VInt 1; VInt 2; VInt 3; VInt 4]))
        [("OBSERVER", VStr "E. Hubble"); ("OBSERVER_COMMENT", VStr "who");
         ("NAXIS1", VInt 2); ("EXPTIME", VInt 30)]
        [VStr "bias subtracted"] [VStr "raw frame"]);
     ("MASK",
      IdiImageHdu "MASK"
        (PArray (mk_ndarray (mk_dtype uint8 1) [2%N] [VInt 0; VInt 1]))
        [("BUNIT", VStr "flag"); ("BUNIT_COMMENT", VStr "")]
        [] [VStr "bad pixels"]);
     ("SOURCES",
      IdiTableHdu "SOURCES"
        (PRows
           [mk_Column "ID" PyNone
              (mk_ndarray (mk_dtype int32 4) [2%N] [VInt 7; VInt 9]);
            mk_Column "COUNTS" (PyStr "ct")
              (mk_ndarray (mk_dtype int64 8) [2%N; 3%N]
                 [VInt 5; VInt 0; VInt 2; VInt 1; VInt 1; VInt 8])])
        [("ORIGIN", VStr "survey"); ("TDIM2", VStr "(3)")]
        [VStr "extracted"] [])].

Definition survey_fits : HDUList :=
  Eval vm_compute in
    match
      create_fits no_fix verify_ok hdulist_verify_ok same_unit survey
        march_morning
    with
    | Return ff => ff
    | Raise _ => []
    end.



(** Export followed by import, with nothing to repair. *)
Definition export_import (m : IdiHdulist) : outcome IdiHdulist :=
  ff <- create_fits no_fix verify_ok hdulist_verify_ok same_unit m
          march_morning ;;
  read_fits no_fix read_table_by_name ff.

Definition unit_names (r : outcome IdiHdulist) : list string :=
  match r with
  | Return doc => keys (units doc)
  | Raise _ => []
  end.

Definition unit_variants (r : outcome IdiHdulist) : list unit_variant :=
  match r with
  | Return doc => map (fun item => idi_variant (snd item)) (units doc)
  | Raise _ => []
  end.

(** An image extension followed by a primary unit stored under another
    name. *)
Definition late_primary : IdiHdulist :=
  mk_IdiHdulist []
    [("SCI",
      IdiImageHdu "SCI"
        (PArray (mk_ndarray (mk_dtype uint8 1) [2%N] [VInt 0; VInt 1]))
        [] [] []);
     ("FIRST", IdiPrimaryHdu "FIRST" [] [] [])].

(** A primary image with no element. *)
Definition empty_image : IdiHdulist :=
  mk_IdiHdulist []
    [("PRIMARY",
      IdiImageHdu "PRIMARY"
        (PArray (mk_ndarray (mk_dtype uint8 1) [0%N] [])) [] [] [])].

(** ** Vocabulary of the further properties *)

(** A card name, stripped, under which [parse_fits_header] stores an entry:
    not blank, not reserved, and neither [HISTORY] nor [COMMENT]. *)
Definition stored_name (card_id : string) : bool :=
  negb (import_drops card_id)
  && negb (String.eqb card_id "HISTORY")
  && negb (String.eqb card_id "COMMENT").

(** The cards that [parse_fits_header] stores as entries, under their
    stripped names, in card order. *)
Definition stored_cards (cs : list card) : list card :=
  map (fun c => (strip (card_key c), card_val c, snd c))
    (filter (fun c => stored_name (strip (card_key c))) cs).

(** A card that [parse_fits_header] does not skip as blank or reserved. *)
Definition kept_card (c : card) : bool :=
  negb (import_drops (strip (card_key c))).

(** Every card that the import stores as an entry has a name that the export
    writes. *)
Definition exportable_cards (cs : list card) : bool :=
  forallb
    (fun c =>
       let card_id := strip (card_key c) in
       import_drops card_id
       || String.eqb card_id "HISTORY"
       || String.eqb card_id "COMMENT"
       || negb (export_skips card_id))
    cs.

(** The entries and lines of a unit of the container are those
    [read_fits] takes from the cards of a unit of the document: the entries
    of [parse_fits_header], its second result (the [COMMENT] values) as the
    history and its third result (the [HISTORY] values) as the comment. *)
Definition lines_stored (h : FitsHdu) (u : IdiHdu) : Prop :=
  idi_header u = fst (fst (parse_cards (hdu_cards h)))
  /\ idi_history u = comment_lines (hdu_cards h)
  /\ idi_comment u = history_lines (hdu_cards h).

(** The variant and the data [read_fits] gives the unit of the container it
    makes of a unit of the document. *)
Definition classified (Table_read : HDUList -> string -> outcome Table)
    (infile : HDUList) (h : FitsHdu) (u : IdiHdu) : Prop :=
  if is_image_or_primary (hdu_kind h) then
    match hdu_size h with
    | Raise e => e = TypeError /\ idi_variant u = Primary
    | Return size =>
        if (size =? 0)%N then idi_variant u = Primary
        else
          match hdu_data h with
          | Raise e => e = TypeError /\ idi_variant u = Primary
          | Return PNone => idi_variant u = Primary
          | Return data =>
              idi_variant u = (if hdu_is_image h then Image else TableUnit)
              /\ idi_data u = data
          end
    end
  else if is_compHDU (hdu_kind h) then
    idi_variant u = Image
    /\ hdu_data h = Return (idi_data u)
    /\ idi_data u <> PNone
  else
    idi_variant u = TableUnit
    /\ exists t,
         Table_read infile (hdu_name h) = Return t /\ idi_data u = PRows t.

(** A unit of the document and the entry of the container made of it. *)
Definition entry_of (Table_read : HDUList -> string -> outcome Table)
    (infile : HDUList) (h : FitsHdu) (entry : string * IdiHdu) : Prop :=
  fst entry = hdu_name h
  /\ lines_stored h (snd entry)
  /\ classified Table_read infile h (snd entry).

(** The order [create_fits] leaves the units in: those it inserts at
    position 0, the last inserted first, then those it appends. *)
Definition placed_order (items : dict IdiHdu) : dict IdiHdu :=
  (rev (filter goes_first items)
   ++ filter (fun item => negb (goes_first item)) items)%list.

(** A document whose second unit, a compressed image, has no data. *)
Definition broken_document : HDUList :=
  [mk_FitsHdu PrimaryHDU "PRIMARY" [("SIMPLE", VBool true, VStr "")]
     (Return 0%N) true (Return PNone);
   mk_FitsHdu CompImageHDU "COMPRESSED_IMAGE"
     [("XTENSION", VStr "BINTABLE", VStr "")]
     (Return 0%N) true (Return PNone)].

(** A document with units of every class: a random-groups unit with its
    records, an image, an image of size 0, an image whose data cannot be
    read, a compressed image and a binary table. *)
Definition classes_document : HDUList :=
  [mk_FitsHdu GroupsHDU "PRIMARY" [("SIMPLE", VBool true, VStr "")]
     (Return 8%N) false
     (Return
        (PRows
           [mk_Column "DATA" PyNone
              (mk_ndarray (mk_dtype float32 4) [2%N] [VInt 3; VInt 4])]));
   mk_FitsHdu ImageHDU "SCI" [("XTENSION", VStr "IMAGE", VStr "")]
     (Return 4%N) true
     (Return (PArray (mk_ndarray (mk_dtype int16 2) [2%N] [VInt 1; VInt 2])));
   mk_FitsHdu ImageHDU "EMPTY" [("XTENSION", VStr "IMAGE", VStr "")]
     (Return 0%N) true (Return PNone);
   mk_FitsHdu ImageHDU "LOST" [("XTENSION", VStr "IMAGE", VStr "")]
     (Return 4%N) true (Raise TypeError);
   mk_FitsHdu CompImageHDU "COMP" [("XTENSION", VStr "BINTABLE", VStr "")]
     (Return 2%N) true
     (Return (PArray (mk_ndarray (mk_dtype uint8 1) [2%N] [VInt 7; VInt 9])));
   mk_FitsHdu BinTableHDU "CAT" [("XTENSION", VStr "BINTABLE", VStr "")]
     (Return 8%N) false
     (Return
        (PColumns
           [mk_FitsColumn "ID" (PyStr "J") PyNone
              (mk_ndarray (mk_dtype int32 4) [2%N] [VInt 7; VInt 9])]))].

(** The container that document is read as. *)
Definition classes_import : IdiHdulist :=
  mk_IdiHdulist classes_document
    [("PRIMARY",
      IdiTableHdu "PRIMARY"
        (PRows
           [mk_Column "DATA" PyNone
              (mk_ndarray (mk_dtype float32 4) [2%N] [VInt 3; VInt 4])])
        [] [] []);
     ("SCI",
      IdiImageHdu "SCI"
        (PArray (mk_ndarray (mk_dtype int16 2) [2%N] [VInt 1; VInt 2]))
        [] [] []);
     ("EMPTY", IdiPrimaryHdu "EMPTY" [] [] []);
     ("LOST", IdiPrimaryHdu "LOST" [] [] []);
     ("COMP",
      IdiImageHdu "COMP"
        (PArray (mk_ndarray (mk_dtype uint8 1) [2%N] [VInt 7; VInt 9]))
        [] [] []);
     ("CAT",
      IdiTableHdu "CAT"
        (PRows
           [mk_Column "ID" PyNone
              (mk_ndarray (mk_dtype int32 4) [2%N] [VInt 7; VInt 9])])
        [] [] [])].

(** A card whose name [write_headers] skips. *)
Definition reserved_card (c : card) : bool := export_skips (card_key c).

(** * Properties *)

(** ** The type-code encoder *)

Lemma fmt_len_scalar (shape : list N) :
  (List.length shape <= 1)%nat \/ last_axis shape = 1%N ->
  (if (1 <? List.length shape)%nat then last_axis shape else 1%N) = 1%N.
Proof.
  intros [Hlen | Hlast].
  - apply Nat.ltb_ge in Hlen. now rewrite Hlen.
  - destruct (1 <? List.length shape)%nat; [exact Hlast | reflexivity].
Qed.

Lemma fmt_len_array (shape : list N) (n : N) :
  (1 < List.length shape)%nat -> last_axis shape = n ->
  (if (1 <? List.length shape)%nat then last_axis shape else 1%N) = n.
Proof.
  intros Hlen Hlast. apply Nat.ltb_lt in Hlen. now rewrite Hlen.
Qed.

Lemma claimed_codes_dtype_dict (t : np_type) (code : string) :
  In (t, code) claimed_codes ->
  dtype_dict t = PyStr code /\ np_type_is_string t = false.
Proof.
  unfold claimed_codes. simpl.
  intuition; match goal with H : (_, _) = (_, _) |- _ => inversion H end;
    subst; split; reflexivity.
Qed.

(** The encoder raises nothing: it is a total function of the element type
    and the shape. *)
Lemma fits_format_code_lookup_returns (dt : numpy_dtype) (shape : list N) :
  exists v, fits_format_code_lookup dt shape = Return v.
Proof.
  unfold fits_format_code_lookup.
  destruct (np_type_is_string (dtype_type dt)).
  - destruct (itemsize dt =? 1)%N; eauto.
  - destruct (N.eqb _ 1); eauto.
Qed.

Lemma drop_digits_uint (d : Decimal.uint) (s : string) :
  drop_digits (NilEmpty.string_of_uint d ++ s) = drop_digits s.
Proof. induction d; simpl; auto. Qed.

Lemma is_format_code_prefixed (n : N) (code : string) :
  is_format_code code = true -> is_format_code (fmt_i n ++ code) = true.
Proof.
  unfold is_format_code, fmt_i. now rewrite drop_digits_uint.
Qed.

(** The table of the code has no entry beyond those the specification
    lists. *)
Lemma dtype_dict_claimed (t : np_type) (code : string) :
  dtype_dict t = PyStr code -> In (t, code) claimed_codes.
Proof.
  destruct t; simpl; intros H; inversion H; subst; clear H;
    unfold claimed_codes; simpl; tauto.
Qed.

Lemma dtype_dict_code (t : np_type) (code : string) :
  dtype_dict t = PyStr code -> is_format_code code = true.
Proof.
  destruct t; simpl; intros H; inversion H; reflexivity.
Qed.

(** C3.  Every element type of the fixed table (uint8 to B, int8 and int16 to
    I, uint16 and int32 to J, uint32, uint64 and int64 to K, float16 and
    float32 to E, float64 to D, complex64 to C, complex128 to M, bool to L)
    gets the bare code when the shape has at most one axis or a last axis of
    length 1, and the code prefixed by n when the shape has several axes and
    the last one has length n > 1; float64 gives D for shape (rows,) and 5D
    for shape (rows, 5). *)
Theorem fits_format_code_lookup_table :
  forall (t : np_type) (code : string) (isz : N) (shape : list N),
    In (t, code) claimed_codes ->
    ((List.length shape <= 1)%nat \/ last_axis shape = 1%N ->
     fits_format_code_lookup (mk_dtype t isz) shape = Return (PyStr code))
    /\ (forall n : N,
         (1 < List.length shape)%nat -> last_axis shape = n -> (1 < n)%N ->
         fits_format_code_lookup (mk_dtype t isz) shape
         = Return (PyStr (fmt_i n ++ code)))
    /\ (forall rows : N,
         fits_format_code_lookup (mk_dtype float64 isz) [rows]
         = Return (PyStr "D")
         /\ fits_format_code_lookup (mk_dtype float64 isz) [rows; 5%N]
            = Return (PyStr "5D")).
Proof.
  intros t code isz shape Hin.
  destruct (claimed_codes_dtype_dict t code Hin) as [Hd Hs].
  unfold fits_format_code_lookup; cbn [dtype_type itemsize].
  rewrite Hs, Hd. repeat split.
  - intros Hsc. now rewrite (fmt_len_scalar shape Hsc).
  - intros n Hlen Hlast Hn. rewrite (fmt_len_array shape n Hlen Hlast).
    destruct (N.eqb_spec n 1) as [-> | _]; [lia | reflexivity].
Qed.

Lemma fits_format_code_lookup_table_witness :
  fits_format_code_lookup (mk_dtype uint16 2) [7%N; 3%N] = Return (PyStr "3J").
Proof.
  refine (proj1 (proj2 (fits_format_code_lookup_table uint16 "J" 2
                          [7%N; 3%N] _)) 3%N _ _ _).
  - simpl. right; right; right; left. reflexivity.
  - simpl. lia.
  - reflexivity.
  - lia.
Defined.

(** C10.  For a fixed-width text type the code is A for width 1 and <n>A for
    any other width n, whatever the shape: two shapes give the same code, and
    no repeat count of the last axis is put in front. *)
Theorem fits_format_code_lookup_text :
  forall (isz : N) (shape shape' : list N),
    fits_format_code_lookup (mk_dtype string_ isz) shape
    = Return (PyStr (if (isz =? 1)%N then "A" else fmt_i isz ++ "A"))
    /\ fits_format_code_lookup (mk_dtype string_ isz) shape
       = fits_format_code_lookup (mk_dtype string_ isz) shape'.
Proof.
  intros isz shape shape'. unfold fits_format_code_lookup; simpl.
  destruct (isz =? 1)%N; split; reflexivity.
Qed.

(** C4, as the code has it.  The encoder raises no error for any element
    type.  For an element type with no entry in the table that is not
    fixed-width text, and a shape with at most one axis or a last axis of
    length 1, it returns None.  For an element type of the table and for
    fixed-width text the result is a format code: an optional decimal count
    and one letter of the alphabet. *)
Theorem fits_format_code_lookup_unsupported :
  forall (dt : numpy_dtype) (shape : list N),
    (exists v, fits_format_code_lookup dt shape = Return v)
    /\ (dtype_dict (dtype_type dt) = PyNone ->
        np_type_is_string (dtype_type dt) = false ->
        (List.length shape <= 1)%nat \/ last_axis shape = 1%N ->
        fits_format_code_lookup dt shape = Return PyNone)
    /\ (dtype_dict (dtype_type dt) <> PyNone
        \/ np_type_is_string (dtype_type dt) = true ->
        exists code,
          fits_format_code_lookup dt shape = Return (PyStr code)
          /\ is_format_code code = true).
Proof.
  intros dt shape. split; [apply fits_format_code_lookup_returns |].
  unfold fits_format_code_lookup. split.
  - intros Hd Hs Hsc. rewrite Hs, Hd, (fmt_len_scalar shape Hsc). reflexivity.
  - intros Hsup. destruct (np_type_is_string (dtype_type dt)) eqn:Hs.
    + destruct (itemsize dt =? 1)%N.
      * exists "A". split; reflexivity.
      * exists (fmt_i (itemsize dt) ++ "A"). split; [reflexivity |].
        now apply is_format_code_prefixed.
    + destruct Hsup as [Hd | Hd]; [| discriminate].
      destruct (dtype_dict (dtype_type dt)) as [| code] eqn:Hc;
        [congruence |].
      pose proof (dtype_dict_code _ _ Hc) as Hok.
      destruct (N.eqb _ 1).
      * exists code. split; [reflexivity | exact Hok].
      * eexists. split; [reflexivity |].
        now apply is_format_code_prefixed.
Qed.

Lemma fits_format_code_lookup_unsupported_witness :
  fits_format_code_lookup (mk_dtype unicode_ 40) [12%N] = Return PyNone
  /\ exists code,
       fits_format_code_lookup (mk_dtype complex64 8) [12%N; 4%N]
       = Return (PyStr code)
       /\ is_format_code code = true.
Proof.
  split.
  - refine (proj1 (proj2 (fits_format_code_lookup_unsupported
                            (mk_dtype unicode_ 40) [12%N])) _ _ _).
    + reflexivity.
    + reflexivity.
    + left. simpl. lia.
  - refine (proj2 (proj2 (fits_format_code_lookup_unsupported
                            (mk_dtype complex64 8) [12%N; 4%N])) _).
    left. simpl. discriminate.
Defined.

(** C4, as stated, fails: an element type with no table entry (numpy's object
    type) makes the encoder return None for a one-axis shape, not raise
    [UnsupportedTypeError]; and with a last axis of length 5 the encoder
    returns the text 5None, which is no format code. *)
Lemma fits_format_code_lookup_unsupported_counterexample :
  dtype_dict object_ = PyNone
  /\ np_type_is_string object_ = false
  /\ fits_format_code_lookup (mk_dtype object_ 8) [3%N] = Return PyNone
  /\ fits_format_code_lookup (mk_dtype object_ 8) [3%N]
     <> Raise UnsupportedTypeError
  /\ fits_format_code_lookup (mk_dtype object_ 8) [3%N; 5%N]
     = Return (PyStr "5None")
  /\ is_format_code "5None" = false.
Proof.
  repeat split; try reflexivity. discriminate.
Qed.

(** ** Dictionaries and card lists *)

Section Dicts.

Context {V : Type}.

Lemma dict_set_fresh (d : dict V) (k : string) (v : V) :
  ~ In k (keys d) -> dict_set d k v = (d ++ [(k, v)])%list.
Proof.
  induction d as [| [k' v'] d IH]; simpl; intros Hk; [reflexivity |].
  destruct (String.eqb_spec k k') as [-> | _]; [tauto |].
  rewrite IH; [reflexivity | tauto].
Qed.

Lemma dict_get_app_fresh (d d' : dict V) (k : string) :
  ~ In k (keys d) -> dict_get (d ++ d')%list k = dict_get d' k.
Proof.
  induction d as [| [k' v'] d IH]; simpl; intros Hk; [reflexivity |].
  destruct (String.eqb_spec k k') as [-> | _]; [tauto |].
  apply IH. tauto.
Qed.

Lemma keys_dict_set (d : dict V) (k : string) (v : V) :
  In k (keys (dict_set d k v)).
Proof.
  induction d as [| [k' v'] d IH]; simpl; [now left |].
  destruct (String.eqb_spec k k') as [-> | _]; simpl; auto.
Qed.

Lemma keys_dict_set_mono (d : dict V) (k k0 : string) (v : V) :
  In k0 (keys d) -> In k0 (keys (dict_set d k v)).
Proof.
  induction d as [| [k' v'] d IH]; simpl; [tauto |].
  destruct (String.eqb_spec k k') as [-> | _]; simpl; intuition.
Qed.

End Dicts.

Lemma header_set_fresh (cards : list card) (k : string) (v c : value) :
  ~ In k (map card_key cards) ->
  header_set cards k v c = (cards ++ [(k, v, c)])%list.
Proof.
  induction cards as [| c0 cards IH]; simpl; intros Hk; [reflexivity |].
  destruct (String.eqb_spec k (card_key c0)) as [-> | _]; [tauto |].
  rewrite IH; [reflexivity | tauto].
Qed.

Lemma fold_add_history (lines : list value) (cards : list card) :
  fold_left add_history lines cards
  = (cards ++ map history_card lines)%list.
Proof.
  revert cards. induction lines as [| l lines IH]; intros cards; simpl.
  - now rewrite app_nil_r.
  - rewrite IH. unfold add_history. now rewrite <- app_assoc.
Qed.

Lemma fold_add_comment (lines : list value) (cards : list card) :
  fold_left add_comment lines cards
  = (cards ++ map comment_card lines)%list.
Proof.
  revert cards. induction lines as [| l lines IH]; intros cards; simpl.
  - now rewrite app_nil_r.
  - rewrite IH. unfold add_comment. now rewrite <- app_assoc.
Qed.

(** ** Header export *)

Section HeaderExport.

Variable verify_fix : list card -> list card.

Lemma write_header_item_skips (hdr : dict value) (cards : list card)
    (k : string) (v : value) :
  write_header_item hdr cards (k, v)
  = if export_skips k then cards
    else header_set cards k v (paired_comment hdr k).
Proof.
  unfold write_header_item, export_skips, paired_comment.
  destruct (endswith k "_COMMENT"),
    (str_in (take 5 k) restricted_table_keywords),
    (String.eqb (take 4 k) "TDIM"), (String.eqb k "TFIELDS"),
    (str_in k restricted_header_keywords); reflexivity.
Qed.

(** The loop over the entries writes the user entries, one after the other,
    and nothing else.  [hdr] is the header the comments are looked up in. *)
Lemma fold_write_header_item (hdr items : dict value) (cards : list card) :
  fold_left (write_header_item hdr) items cards
  = fold_left set_triple
      (map (fun kv => (fst kv, snd kv, paired_comment hdr (fst kv)))
         (filter (fun kv => negb (export_skips (fst kv))) items))
      cards.
Proof.
  revert cards. induction items as [| [k v] items IH]; intros cards;
    [reflexivity |].
  cbn [fold_left filter fst]. rewrite write_header_item_skips.
  destruct (export_skips k); cbn [negb]; [apply IH |].
  cbn [map fold_left fst snd]. rewrite IH. reflexivity.
Qed.

Lemma fold_set_triple_fresh (ts cards : list card) :
  NoDup (map card_key ts) ->
  (forall t, In t ts -> ~ In (card_key t) (map card_key cards)) ->
  fold_left set_triple ts cards = (cards ++ ts)%list.
Proof.
  revert cards. induction ts as [| [[k v] c] ts IH]; intros cards Hnd Hfresh.
  - simpl. now rewrite app_nil_r.
  - cbn [fold_left]. unfold set_triple at 2. cbn [fst snd].
    inversion Hnd as [| ? ? Hk Hnd']; subst.
    rewrite header_set_fresh by (apply (Hfresh (k, v, c)); now left).
    rewrite IH; [now rewrite <- app_assoc | exact Hnd' |].
    intros t Ht. rewrite map_app, in_app_iff. simpl.
    intros [Hin | [Heq | []]].
    + apply (Hfresh t); [now right | exact Hin].
    + apply Hk. rewrite Heq. apply in_map. exact Ht.
Qed.

Lemma user_entries_keys (hdr : dict value) :
  map card_key (user_entries hdr)
  = map fst (filter (fun kv => negb (export_skips (fst kv))) hdr).
Proof.
  unfold user_entries. rewrite map_map. reflexivity.
Qed.

Lemma keys_filter_NoDup {V : Type} (keep : string * V -> bool)
    (d : dict V) :
  NoDup (keys d) -> NoDup (keys (filter keep d)).
Proof.
  unfold keys. induction d as [| [k v] d IH]; simpl; intros Hnd;
    [constructor |].
  inversion Hnd as [| ? ? Hk Hnd']; subst.
  destruct (keep (k, v)); simpl; [constructor |]; auto.
  intros Hin. apply Hk. apply in_map_iff in Hin as [x [Hx Hin]].
  apply filter_In in Hin as [Hin _]. rewrite <- Hx. now apply in_map.
Qed.

Lemma user_entries_not_skipped (hdr : dict value) (c : card) :
  In c (user_entries hdr) ->
  export_skips (card_key c) = false
  /\ In (card_key c, snd (fst c)) hdr
  /\ snd c = paired_comment hdr (card_key c).
Proof.
  unfold user_entries. intros Hin.
  apply in_map_iff in Hin as [[k v] [<- Hin]].
  apply filter_In in Hin as [Hin Hskip]. cbn in *.
  apply negb_true_iff in Hskip. auto.
Qed.

Lemma user_entries_written (hdr : dict value) (k : string) (v : value) :
  In (k, v) hdr -> export_skips k = false ->
  In (k, v, paired_comment hdr k) (user_entries hdr).
Proof.
  intros Hin Hskip. unfold user_entries.
  apply in_map_iff. exists (k, v). split; [reflexivity |].
  apply filter_In. split; [exact Hin |]. cbn. now rewrite Hskip.
Qed.

(** What [write_headers] hands to the repair pass: the cards of the unit
    with every user entry assigned in turn, then the history lines, then the
    comment lines. *)
Lemma write_headers_assigns (hduobj : FitsHdu) (idiobj : IdiHdu) :
  write_headers verify_fix hduobj idiobj
  = fix_unit verify_fix
      (set_cards hduobj
         (fold_left set_triple (user_entries (idi_header idiobj))
            (hdu_cards hduobj)
          ++ map history_card (idi_history idiobj)
          ++ map comment_card (idi_comment idiobj))%list).
Proof.
  unfold write_headers.
  rewrite fold_add_comment, fold_add_history, fold_write_header_item.
  fold (user_entries (idi_header idiobj)). now rewrite <- app_assoc.
Qed.

Lemma user_entries_appended (hdr : dict value) (cards : list card) :
  NoDup (keys hdr) ->
  (forall c, In c cards -> export_skips (card_key c) = true) ->
  fold_left set_triple (user_entries hdr) cards
  = (cards ++ user_entries hdr)%list.
Proof.
  intros Hnd Hres. apply fold_set_triple_fresh.
  - rewrite user_entries_keys. now apply keys_filter_NoDup.
  - intros t Ht Hin.
    apply user_entries_not_skipped in Ht as [Hskip _].
    apply in_map_iff in Hin as [c [Hc Hin]].
    apply Hres in Hin. congruence.
Qed.

(** What [write_headers] hands to the repair pass when the unit written to
    holds reserved cards only. *)
Lemma write_headers_cards (hduobj : FitsHdu) (idiobj : IdiHdu) :
  NoDup (keys (idi_header idiobj)) ->
  (forall c, In c (hdu_cards hduobj) -> export_skips (card_key c) = true) ->
  write_headers verify_fix hduobj idiobj
  = fix_unit verify_fix
      (set_cards hduobj
         (hdu_cards hduobj ++ user_entries (idi_header idiobj)
          ++ map history_card (idi_history idiobj)
          ++ map comment_card (idi_comment idiobj))%list).
Proof.
  intros Hnd Hres.
  rewrite write_headers_assigns, (user_entries_appended _ _ Hnd Hres).
  now rewrite <- app_assoc.
Qed.

End HeaderExport.

(** C6.  [write_headers] hands to the repair pass the cards of the unit with
    one assignment [header[key] = (value, comment)] for every entry whose key
    neither ends in [_COMMENT] nor is reserved (structural, table-derived
    prefix, [TDIM] prefix, [TFIELDS]), in the order of the entries, the
    comment being [entries[key + "_COMMENT"]] or empty, then the history
    lines in order, then the comment lines in order; nothing is assigned for
    a reserved key or a [_COMMENT] key.  Written to a unit that holds
    reserved cards only, the assignments append one card each. *)
Theorem write_headers_user_entries :
  forall (verify_fix : list card -> list card) (hduobj : FitsHdu)
         (idiobj : IdiHdu),
    write_headers verify_fix hduobj idiobj
    = fix_unit verify_fix
        (set_cards hduobj
           (fold_left set_triple (user_entries (idi_header idiobj))
              (hdu_cards hduobj)
            ++ map history_card (idi_history idiobj)
            ++ map comment_card (idi_comment idiobj))%list)
    /\ (forall k v,
         In (k, v) (idi_header idiobj) -> export_skips k = false ->
         In (k, v, paired_comment (idi_header idiobj) k)
            (user_entries (idi_header idiobj)))
    /\ (forall c,
         In c (user_entries (idi_header idiobj)) ->
         export_skips (card_key c) = false
         /\ In (card_key c, card_val c) (idi_header idiobj))
    /\ (NoDup (keys (idi_header idiobj)) ->
        (forall c, In c (hdu_cards hduobj) ->
           export_skips (card_key c) = true) ->
        fold_left set_triple (user_entries (idi_header idiobj))
          (hdu_cards hduobj)
        = (hdu_cards hduobj ++ user_entries (idi_header idiobj))%list).
Proof.
  intros vf hduobj idiobj. split; [| split; [| split]].
  - apply write_headers_assigns.
  - apply user_entries_written.
  - intros c Hc. apply user_entries_not_skipped in Hc. tauto.
  - apply user_entries_appended.
Qed.

Lemma write_headers_user_entries_witness :
  hdu_cards
    (write_headers no_fix new_ImageHDU
       (IdiImageHdu "SCI" PNone
          [("OBSERVER", VStr "E. Hubble"); ("OBSERVER_COMMENT", VStr "who");
           ("NAXIS1", VInt 3); ("TDIM2", VStr "(2,2)");
           ("EXPTIME", VInt 30)]
          [VStr "first"; VStr "second"] [VStr "note"]))
  = (hdu_cards new_ImageHDU
     ++ [("OBSERVER", VStr "E. Hubble", VStr "who");
         ("EXPTIME", VInt 30, VStr "");
         ("HISTORY", VStr "first", VStr "");
         ("HISTORY", VStr "second", VStr "");
         ("COMMENT", VStr "note", VStr "")])%list.
Proof.
  pose proof
    (write_headers_user_entries no_fix new_ImageHDU
       (IdiImageHdu "SCI" PNone
          [("OBSERVER", VStr "E. Hubble"); ("OBSERVER_COMMENT", VStr "who");
           ("NAXIS1", VInt 3); ("TDIM2", VStr "(2,2)");
           ("EXPTIME", VInt 30)]
          [VStr "first"; VStr "second"] [VStr "note"])) as H.
  destruct H as (Hw & _ & _ & Happ).
  rewrite Hw, Happ.
  - reflexivity.
  - simpl. repeat constructor; simpl; intuition discriminate.
  - simpl. intros c Hc.
    repeat (destruct Hc as [<- | Hc]; [reflexivity |]). destruct Hc.
Defined.

(** ** Strings *)

Lemma length_append (a b : string) :
  String.length (a ++ b) = (String.length a + String.length b)%nat.
Proof. induction a as [| c a IH]; simpl; [reflexivity | now rewrite IH]. Qed.

Lemma substring_0_length (s : string) : substring 0 (String.length s) s = s.
Proof. induction s as [| c s IH]; simpl; [reflexivity | now rewrite IH]. Qed.

Lemma substring_append_skip (a b : string) (n : nat) :
  substring (String.length a) n (a ++ b) = substring 0 n b.
Proof. induction a as [| c a IH]; simpl; [reflexivity | exact IH]. Qed.

Lemma endswith_append (a s : string) : endswith (a ++ s) s = true.
Proof.
  unfold endswith. rewrite length_append.
  replace (String.length a + String.length s - String.length s)%nat
    with (String.length a) by lia.
  rewrite substring_append_skip, substring_0_length, String.eqb_refl.
  rewrite andb_true_r. apply Nat.leb_le. lia.
Qed.

Lemma append_inj_l (a b s : string) : a ++ s = b ++ s -> a = b.
Proof.
  revert b. induction a as [| c a IH]; intros [| d b] H; simpl in H.
  - reflexivity.
  - apply (f_equal String.length) in H. simpl in H.
    rewrite length_append in H. lia.
  - apply (f_equal String.length) in H. simpl in H.
    rewrite length_append in H. lia.
  - inversion H as [[Hc Hs]]. f_equal. now apply IH.
Qed.

Lemma not_endswith_append (k a s : string) :
  endswith k s = false -> k <> a ++ s.
Proof. intros H ->. now rewrite endswith_append in H. Qed.

(** ** Header import *)

Lemma export_skips_companion (k : string) :
  export_skips (k ++ "_COMMENT") = true.
Proof. unfold export_skips. now rewrite endswith_append. Qed.

Lemma export_skips_not_companion (k a : string) :
  export_skips k = false -> k <> a ++ "_COMMENT".
Proof.
  unfold export_skips. intros H. apply not_endswith_append.
  destruct (endswith k "_COMMENT"); [discriminate | reflexivity].
Qed.

(** What the import drops, the export skips: the reserved names of the
    import are among those of the export. *)
Lemma import_drops_export_skips (k : string) :
  export_skips k = false -> k <> "" -> k <> " " -> import_drops k = false.
Proof.
  unfold export_skips, import_drops. intros H H1 H2.
  destruct (endswith k "_COMMENT"); [discriminate |].
  destruct (str_in (take 5 k) restricted_table_keywords); [discriminate |].
  destruct (String.eqb (take 4 k) "TDIM"); [discriminate |].
  destruct (String.eqb k "TFIELDS"); [discriminate |].
  destruct (str_in k restricted_header_keywords); [discriminate |].
  rewrite !orb_false_r. unfold str_in. simpl.
  destruct (String.eqb_spec k ""); [contradiction |].
  destruct (String.eqb_spec k " "); [contradiction | reflexivity].
Qed.

Lemma parse_card_dropped (st : dict value * list value * list value)
    (k : string) (v c : value) :
  import_drops (strip k) = true -> parse_card st (k, v, c) = st.
Proof.
  destruct st as [[h co] hi]. unfold parse_card, import_drops.
  destruct (str_in (strip k) [""; " "]); [reflexivity |].
  destruct (str_in (strip k) restricted_header_keywords); [reflexivity |].
  destruct (str_in (take 5 (strip k)) restricted_table_keywords);
    [reflexivity | discriminate].
Qed.

Lemma parse_card_user (h : dict value) (co hi : list value)
    (k : string) (v c : value) :
  user_key k = true ->
  parse_card (h, co, hi) (k, v, c)
  = (dict_set (dict_set h k v) (k ++ "_COMMENT") c, co, hi).
Proof.
  unfold user_key, parse_card, import_drops. intros H.
  apply andb_true_iff in H as [H Hc]. apply andb_true_iff in H as [H Hh].
  apply andb_true_iff in H as [Hs Hd].
  apply String.eqb_eq in Hs. rewrite Hs.
  apply negb_true_iff in Hd, Hh, Hc. rewrite Hh, Hc.
  destruct (str_in k [""; " "]); [discriminate |].
  destruct (str_in k restricted_header_keywords); [discriminate |].
  destruct (str_in (take 5 k) restricted_table_keywords);
    [discriminate | reflexivity].
Qed.

Lemma parse_card_history (h : dict value) (co hi : list value)
    (line : value) :
  parse_card (h, co, hi) (history_card line) = (h, co, (hi ++ [line])%list).
Proof. reflexivity. Qed.

Lemma parse_card_comment (h : dict value) (co hi : list value)
    (line : value) :
  parse_card (h, co, hi) (comment_card line) = (h, (co ++ [line])%list, hi).
Proof. reflexivity. Qed.

(** The line sequences [parse_fits_header] builds are the values of the
    [HISTORY] cards and of the [COMMENT] cards, each in card order. *)
Lemma fold_parse_card_lines (cs : list card) (h : dict value)
    (co hi : list value) :
  snd (fold_left parse_card cs (h, co, hi)) = (hi ++ history_lines cs)%list
  /\ snd (fst (fold_left parse_card cs (h, co, hi)))
     = (co ++ comment_lines cs)%list.
Proof.
  revert h co hi. induction cs as [| [[k v] c] cs IH]; intros h co hi.
  - simpl. now rewrite !app_nil_r.
  - cbn [fold_left]. unfold history_lines, comment_lines.
    cbn [filter card_key fst].
    destruct (String.eqb_spec (strip k) "HISTORY") as [Hh | Hh].
    + assert (Hp : parse_card (h, co, hi) (k, v, c)
                   = (h, co, (hi ++ [v])%list))
        by (unfold parse_card; rewrite Hh; reflexivity).
      rewrite Hp. destruct (IH h co (hi ++ [v])%list) as [IH1 IH2].
      rewrite IH1, IH2, Hh. cbn. rewrite <- app_assoc. split; reflexivity.
    + destruct (String.eqb_spec (strip k) "COMMENT") as [Hc | Hc].
      * assert (Hp : parse_card (h, co, hi) (k, v, c)
                     = (h, (co ++ [v])%list, hi))
          by (unfold parse_card; rewrite Hc; reflexivity).
        rewrite Hp. destruct (IH h (co ++ [v])%list hi) as [IH1 IH2].
        rewrite IH1, IH2. cbn. rewrite <- app_assoc. split; reflexivity.
      * assert (Hp : exists h', parse_card (h, co, hi) (k, v, c)
                                = (h', co, hi)).
        { unfold parse_card.
          destruct (str_in (strip k) [""; " "]); [eauto |].
          destruct (str_in (strip k) restricted_header_keywords); [eauto |].
          destruct (str_in (take 5 (strip k)) restricted_table_keywords);
            [eauto |].
          destruct (String.eqb_spec (strip k) "HISTORY"); [contradiction |].
          destruct (String.eqb_spec (strip k) "COMMENT"); [contradiction |].
          eauto. }
        destruct Hp as [h' Hp]. rewrite Hp. apply IH.
Qed.

Lemma parse_fits_header_lines (verify_fix : list card -> list card)
    (hdul : FitsHdu) :
  parse_fits_header verify_fix hdul
  = (fst (fst (parse_fits_header verify_fix hdul)),
     comment_lines (verify_fix (hdu_cards hdul)),
     history_lines (verify_fix (hdu_cards hdul))).
Proof.
  unfold parse_fits_header, fix_unit, set_cards. cbn [hdu_cards].
  set (X := fold_left parse_card _ _).
  assert (Hh : snd X = history_lines (verify_fix (hdu_cards hdul)))
    by apply (fold_parse_card_lines _ [] [] []).
  assert (Hc : snd (fst X) = comment_lines (verify_fix (hdu_cards hdul)))
    by apply (fold_parse_card_lines _ [] [] []).
  clearbody X. destruct X as [[h co] hi]. cbn [fst snd] in *. now subst.
Qed.

(** C5, at a card list with a [TDIM] card: the structural card [TFIELDS] and
    the prefixed card [NAXIS1] are dropped and the user card is kept with its
    comment, but the card [TDIM1] is kept too, with a companion entry; the
    export does skip that name. *)
Theorem parse_fits_header_keeps_TDIM :
  parse_fits_header no_fix
    (mk_FitsHdu BinTableHDU "EVENTS"
       [("TFIELDS", VInt 1, VStr "number of table fields");
        ("NAXIS1", VInt 32, VStr "");
        ("TDIM1", VStr "(2,2)", VStr "dims");
        ("OBSERVER", VStr "E. Hubble", VStr "who")]
       (Return 64%N) false (Return PNone))
  = ([("TDIM1", VStr "(2,2)"); ("TDIM1_COMMENT", VStr "dims");
      ("OBSERVER", VStr "E. Hubble"); ("OBSERVER_COMMENT", VStr "who")],
     [], [])
  /\ import_drops "TDIM1" = false
  /\ export_skips "TDIM1" = true.
Proof. repeat split. Qed.

(** ** Import *)

Section ImportLoop.

Variable verify_fix : list card -> list card.
Variable Table_read : HDUList -> string -> outcome Table.

Lemma default_name_kind (ii : N) (h : FitsHdu) :
  hdu_kind (fst (default_name ii h)) = hdu_kind h.
Proof. unfold default_name. now destruct (str_in _ _). Qed.

Lemma default_name_blank (ii : N) (h : FitsHdu) :
  is_blank (hdu_name h) = true ->
  default_name ii h = (set_name h ("HDU" ++ fmt_i ii), (ii + 1)%N).
Proof. unfold default_name, is_blank. now intros ->. Qed.

Lemma default_name_named (ii : N) (h : FitsHdu) :
  is_blank (hdu_name h) = false -> default_name ii h = (h, ii).
Proof. unfold default_name, is_blank. now intros ->. Qed.

(** A unit that says it has a payload and has none: slicing the missing data
    raises [TypeError]. *)
Lemma build_image_unit_no_data (d : dict IdiHdu) (h : FitsHdu)
    (hdr : dict value) (l1 l2 : list value) (n : N) :
  hdu_size h = Return n -> n <> 0%N -> hdu_data h = Return PNone ->
  build_image_unit d h hdr l1 l2 = Raise TypeError.
Proof.
  intros Hs Hn Hd. unfold build_image_unit. rewrite Hs. cbn [bind].
  destruct (N.eqb_spec n 0); [contradiction |].
  destruct (hdu_is_image h); rewrite Hd; reflexivity.
Qed.

(** What one turn of the loop leaves: the unit under its final name, the
    counter, and a container that has that name and every earlier one. *)
Lemma read_fits_unit_inv (infile : HDUList) (ii ii1 : N)
    (d d1 : dict IdiHdu) (h h1 : FitsHdu) :
  read_fits_unit verify_fix Table_read infile ii d h = Return (ii1, h1, d1) ->
  h1 = fix_unit verify_fix (fst (default_name ii h))
  /\ ii1 = snd (default_name ii h)
  /\ In (hdu_name h1) (keys d1)
  /\ (forall k, In k (keys d) -> In k (keys d1)).
Proof.
  unfold read_fits_unit.
  destruct (default_name ii h) as [named ii'].
  destruct (parse_fits_header verify_fix named) as [[hdr l1] l2].
  cbn [fst snd].
  destruct (is_image_or_primary (hdu_kind (fix_unit verify_fix named))).
  - unfold try_except, build_image_unit.
    destruct (hdu_size (fix_unit verify_fix named)) as [size | e];
      cbn [bind].
    + destruct (size =? 0)%N; cbn [bind].
      * intros H; inversion H; subst. repeat split; auto.
        -- apply keys_dict_set.
        -- intros k. apply keys_dict_set_mono.
      * destruct (hdu_is_image (fix_unit verify_fix named));
          (destruct (hdu_data (fix_unit verify_fix named)) as [p | e];
           cbn [bind];
           [ destruct p; cbn [slice_all bind exn_eqb] |
             destruct e; cbn [exn_eqb bind] ]);
          intros H; inversion H; subst; repeat split; auto;
          try apply keys_dict_set; intros k; apply keys_dict_set_mono.
    + destruct e; cbn [exn_eqb bind]; intros H; inversion H; subst.
      repeat split; auto; [apply keys_dict_set |].
      intros k. apply keys_dict_set_mono.
  - destruct (is_compHDU (hdu_kind (fix_unit verify_fix named))).
    + destruct (hdu_data (fix_unit verify_fix named)) as [p | e];
        cbn [bind]; [| discriminate].
      destruct p; cbn [slice_all bind]; intros H; inversion H; subst;
        repeat split; auto; try apply keys_dict_set;
        intros k; apply keys_dict_set_mono.
    + destruct (Table_read infile (hdu_name (fix_unit verify_fix named)));
        cbn [bind]; intros H; inversion H; subst.
      repeat split; auto; [apply keys_dict_set |].
      intros k. apply keys_dict_set_mono.
Qed.

Lemma read_fits_loop_keys (infile todo : HDUList) (ii : N)
    (seen : HDUList) (d : dict IdiHdu) (doc : IdiHdulist) :
  read_fits_loop verify_fix Table_read infile todo ii seen d = Return doc ->
  forall k, In k (keys d) -> In k (keys (units doc)).
Proof.
  revert ii seen d. induction todo as [| h todo IH]; intros ii seen d; simpl.
  - intros H; inversion H; subst. auto.
  - destruct (read_fits_unit verify_fix Table_read infile ii d h)
      as [[[ii1 h1] d1] | e] eqn:Hu; cbn [bind]; [| discriminate].
    intros Hl k Hk. apply (IH _ _ _ Hl).
    apply read_fits_unit_inv in Hu as (_ & _ & _ & Hmono). auto.
Qed.

(** The units the loop leaves behind, one for each unit it walked, under
    the names it gave them. *)
Lemma read_fits_loop_names (infile todo : HDUList) (ii : N)
    (seen : HDUList) (d : dict IdiHdu) (doc : IdiHdulist) :
  read_fits_loop verify_fix Table_read infile todo ii seen d = Return doc ->
  forall pre u post, todo = (pre ++ u :: post)%list ->
    exists u',
      nth_error (fits doc) (List.length seen + List.length pre) = Some u'
      /\ (is_blank (hdu_name u) = true ->
          hdu_name u' = "HDU" ++ fmt_i (ii + count_blank pre))
      /\ (is_blank (hdu_name u) = false -> hdu_name u' = hdu_name u)
      /\ In (hdu_name u') (keys (units doc)).
Proof.
  revert ii seen d. induction todo as [| h todo IH]; intros ii seen d Hl
    pre u post Hsplit.
  - destruct pre; discriminate.
  - simpl in Hl.
    destruct (read_fits_unit verify_fix Table_read infile ii d h)
      as [[[ii1 h1] d1] | e] eqn:Hu; cbn [bind] in Hl; [| discriminate].
    pose proof (read_fits_unit_inv _ _ _ _ _ _ _ Hu) as (Hh1 & Hii & Hin & _).
    destruct pre as [| p pre].
    + simpl in Hsplit. inversion Hsplit; subst h todo.
      assert (Hfits : exists rest, fits doc = (seen ++ [h1] ++ rest)%list).
      { clear - Hl. revert ii1 seen d1 h1 Hl.
        induction post as [| x post IHp]; intros ii1 seen d1 h1 Hl; simpl in Hl.
        - inversion Hl; subst. exists []. reflexivity.
        - destruct (read_fits_unit verify_fix Table_read infile ii1 d1 x)
            as [[[ii2 h2] d2] | e] eqn:Hx; cbn [bind] in Hl; [| discriminate].
          apply IHp in Hl as [rest Hr]. exists (h2 :: rest).
          rewrite Hr, <- !app_assoc. reflexivity. }
      destruct Hfits as [rest Hfits]. exists h1. rewrite Hfits.
      simpl List.length. rewrite Nat.add_0_r.
      rewrite nth_error_app2 by lia. rewrite Nat.sub_diag.
      repeat split.
      * intros Hb. rewrite Hh1, (default_name_blank _ _ Hb). simpl.
        now rewrite N.add_0_r.
      * intros Hb. rewrite Hh1, (default_name_named _ _ Hb). reflexivity.
      * apply (read_fits_loop_keys _ _ _ _ _ _ Hl). exact Hin.
    + simpl in Hsplit. inversion Hsplit; subst p todo.
      destruct (IH _ _ _ Hl pre u post eq_refl) as (u' & Hn & Hb & Hnb & Hk).
      exists u'. rewrite length_app in Hn. simpl in Hn. simpl List.length.
      replace (List.length seen + S (List.length pre))%nat
        with (List.length seen + 1 + List.length pre)%nat by lia.
      repeat split; auto.
      intros Hbl. rewrite (Hb Hbl). f_equal. f_equal. rewrite Hii.
      cbn [count_blank]. unfold default_name, is_blank.
      destruct (str_in (hdu_name h) [""; " "]); cbn [snd]; lia.
Qed.

End ImportLoop.

(** C7.  For a unit declared as an image or primary unit, with the header
    and the two line sequences [parse_fits_header] returned for it: when
    building the unit raises [TypeError], the turn of the loop does not fail
    but stores a primary unit with that same header and those same line
    sequences under the unit's name; an exception of any other type raised
    there is passed on to the caller; and when nothing is raised the unit
    built is the one stored. *)
Theorem read_fits_unit_type_error :
  forall (verify_fix : list card -> list card)
         (Table_read : HDUList -> string -> outcome Table)
         (infile : HDUList) (ii : N) (hdul_idi : dict IdiHdu)
         (hdul_fits : FitsHdu) (hdr : dict value) (l1 l2 : list value),
    is_image_or_primary (hdu_kind hdul_fits) = true ->
    parse_fits_header verify_fix (fst (default_name ii hdul_fits))
    = (hdr, l1, l2) ->
    let unit := fix_unit verify_fix (fst (default_name ii hdul_fits)) in
    let ii' := snd (default_name ii hdul_fits) in
    (build_image_unit hdul_idi unit hdr l1 l2 = Raise TypeError ->
     read_fits_unit verify_fix Table_read infile ii hdul_idi hdul_fits
     = Return (ii', unit,
               add_primary_hdu hdul_idi (hdu_name unit) hdr l1 l2))
    /\ (forall e, e <> TypeError ->
         build_image_unit hdul_idi unit hdr l1 l2 = Raise e ->
         read_fits_unit verify_fix Table_read infile ii hdul_idi hdul_fits
         = Raise e)
    /\ (forall d,
         build_image_unit hdul_idi unit hdr l1 l2 = Return d ->
         read_fits_unit verify_fix Table_read infile ii hdul_idi hdul_fits
         = Return (ii', unit, d)).
Proof.
  intros vf TR infile ii d h hdr l1 l2 Hkind Hparse unit ii'.
  subst unit ii'. unfold read_fits_unit.
  pose proof (default_name_kind ii h) as Hk.
  destruct (default_name ii h) as [named ii']. cbn [fst snd] in *.
  rewrite Hparse.
  replace (hdu_kind (fix_unit vf named)) with (hdu_kind h)
    by (rewrite <- Hk; reflexivity).
  rewrite Hkind. repeat split.
  - intros Hb. rewrite Hb. reflexivity.
  - intros e He Hb. rewrite Hb. destruct e; try reflexivity. contradiction.
  - intros d' Hb. rewrite Hb. reflexivity.
Qed.

Lemma read_fits_unit_type_error_witness :
  read_fits_unit no_fix read_table_by_name [] 0 []
    (mk_FitsHdu GroupsHDU ""
       [("SIMPLE", VBool true, VStr ""); ("GROUPS", VBool true, VStr "");
        ("OBSERVER", VStr "E. Hubble", VStr "who")]
       (Return 2880%N) false (Return PNone))
  = Return
      (1%N,
       mk_FitsHdu GroupsHDU "HDU0"
         [("SIMPLE", VBool true, VStr ""); ("GROUPS", VBool true, VStr "");
          ("OBSERVER", VStr "E. Hubble", VStr "who")]
         (Return 2880%N) false (Return PNone),
       [("HDU0",
         IdiPrimaryHdu "HDU0"
           [("OBSERVER", VStr "E. Hubble");
            ("OBSERVER_COMMENT", VStr "who")] [] [])]).
Proof.
  refine (proj1 (read_fits_unit_type_error no_fix read_table_by_name [] 0 []
                   (mk_FitsHdu GroupsHDU ""
                      [("SIMPLE", VBool true, VStr "");
                       ("GROUPS", VBool true, VStr "");
                       ("OBSERVER", VStr "E. Hubble", VStr "who")]
                      (Return 2880%N) false (Return PNone))
                   [("OBSERVER", VStr "E. Hubble");
                    ("OBSERVER_COMMENT", VStr "who")] [] [] _ _) _).
  - reflexivity.
  - reflexivity.
  - apply (build_image_unit_no_data _ _ _ _ _ 2880%N);
      [reflexivity | discriminate | reflexivity].
Defined.

(** Outside the branch for image and primary units nothing is caught: a
    compressed image whose data cannot be sliced fails the import with
    [TypeError]. *)
Lemma read_fits_unit_compressed_raises
    (verify_fix : list card -> list card)
    (Table_read : HDUList -> string -> outcome Table)
    (infile : HDUList) (ii : N) (hdul_idi : dict IdiHdu)
    (hdul_fits : FitsHdu) :
  hdu_kind hdul_fits = CompImageHDU ->
  hdu_data hdul_fits = Return PNone ->
  read_fits_unit verify_fix Table_read infile ii hdul_idi hdul_fits
  = Raise TypeError.
Proof.
  intros Hk Hd. unfold read_fits_unit.
  pose proof (default_name_kind ii hdul_fits) as Hk'.
  assert (Hd' : hdu_data (fst (default_name ii hdul_fits)) = Return PNone)
    by (unfold default_name; destruct (str_in _ _); exact Hd).
  destruct (default_name ii hdul_fits) as [named ii']. cbn [fst] in *.
  destruct (parse_fits_header verify_fix named) as [[hdr l1] l2].
  replace (hdu_kind (fix_unit verify_fix named)) with CompImageHDU
    by (rewrite <- Hk, <- Hk'; reflexivity).
  cbn [is_image_or_primary is_compHDU].
  replace (hdu_data (fix_unit verify_fix named)) with (hdu_data named)
    by reflexivity.
  rewrite Hd'. reflexivity.
Qed.

(** C8.  When the import returns, the unit at a position where the document
    has a blank-named unit is named HDU<i>, with i the number of blank-named
    units before it, and the container has a unit of that name; a unit with
    a name keeps it; so the third blank-named unit is HDU2 wherever it
    stands among named units. *)
Theorem read_fits_default_names :
  forall (verify_fix : list card -> list card)
         (Table_read : HDUList -> string -> outcome Table)
         (ff : HDUList) (doc : IdiHdulist)
         (pre : HDUList) (u : FitsHdu) (post : HDUList),
    read_fits verify_fix Table_read ff = Return doc ->
    ff = (pre ++ u :: post)%list ->
    exists u',
      nth_error (fits doc) (List.length pre) = Some u'
      /\ In (hdu_name u') (keys (units doc))
      /\ (is_blank (hdu_name u) = true ->
          hdu_name u' = "HDU" ++ fmt_i (count_blank pre)
          /\ (count_blank pre = 2%N -> hdu_name u' = "HDU2"))
      /\ (is_blank (hdu_name u) = false -> hdu_name u' = hdu_name u).
Proof.
  intros vf TR ff doc pre u post Hr Hsplit. unfold read_fits in Hr.
  destruct (read_fits_loop_names vf TR _ _ _ _ _ _ Hr pre u post Hsplit)
    as (u' & Hn & Hb & Hnb & Hk).
  exists u'. simpl in Hn. rewrite N.add_0_l in Hb.
  split; [exact Hn |]. split; [exact Hk |]. split; [| exact Hnb].
  intros H. split; [now apply Hb |].
  intros H2. rewrite (Hb H), H2. reflexivity.
Qed.

Lemma read_fits_default_names_witness :
  read_fits no_fix read_table_by_name blank_names_document
  = Return blank_names_import
  /\ exists u',
       nth_error (fits blank_names_import) 4 = Some u'
       /\ hdu_name u' = "HDU2".
Proof.
  assert (Hr : read_fits no_fix read_table_by_name blank_names_document
               = Return blank_names_import) by reflexivity.
  split; [exact Hr |].
  destruct (read_fits_default_names no_fix read_table_by_name
              blank_names_document blank_names_import
              (firstn 4 blank_names_document)
              (mk_FitsHdu ImageHDU "" [("XTENSION", VStr "IMAGE", VStr "")]
                 (Return 0%N) true (Return PNone))
              [] Hr eq_refl) as (u' & Hn & _ & Hb & _).
  exists u'. split; [exact Hn |].
  apply Hb; reflexivity.
Defined.

Lemma dict_get_set_same {V : Type} (d : dict V) (k : string) (v : V) :
  dict_get (dict_set d k v) k = Some v.
Proof.
  induction d as [| [k' v'] d IH]; simpl.
  - now rewrite String.eqb_refl.
  - destruct (String.eqb_spec k k') as [-> | Hne]; simpl.
    + now rewrite String.eqb_refl.
    + destruct (String.eqb_spec k k'); [contradiction | exact IH].
Qed.

(** Every unit [read_fits] stores has the values of the [COMMENT] cards as
    its history and the values of the [HISTORY] cards as its comment, each
    in card order. *)
Lemma read_fits_unit_lines (verify_fix : list card -> list card)
    (Table_read : HDUList -> string -> outcome Table)
    (infile : HDUList) (ii ii1 : N) (d d1 : dict IdiHdu) (h h1 : FitsHdu) :
  read_fits_unit verify_fix Table_read infile ii d h = Return (ii1, h1, d1) ->
  exists u,
    dict_get d1 (hdu_name h1) = Some u
    /\ idi_history u = comment_lines (hdu_cards h1)
    /\ idi_comment u = history_lines (hdu_cards h1).
Proof.
  unfold read_fits_unit.
  destruct (default_name ii h) as [named ii'].
  rewrite (parse_fits_header_lines verify_fix named).
  set (hdr := fst (fst (parse_fits_header verify_fix named))).
  clearbody hdr.
  destruct (is_image_or_primary (hdu_kind (fix_unit verify_fix named))).
  - unfold try_except, build_image_unit.
    destruct (hdu_size (fix_unit verify_fix named)) as [size | e];
      cbn [bind].
    + destruct (size =? 0)%N; cbn [bind].
      * intros H; inversion H; subst. eexists.
        split; [apply dict_get_set_same | split; reflexivity].
      * destruct (hdu_is_image (fix_unit verify_fix named));
          (destruct (hdu_data (fix_unit verify_fix named)) as [p | e];
           cbn [bind];
           [ destruct p; cbn [slice_all bind exn_eqb] |
             destruct e; cbn [exn_eqb bind] ]);
          intros H; inversion H; subst; eexists;
          (split; [apply dict_get_set_same | split; reflexivity]).
    + destruct e; cbn [exn_eqb bind]; intros H; inversion H; subst.
      eexists. split; [apply dict_get_set_same | split; reflexivity].
  - destruct (is_compHDU (hdu_kind (fix_unit verify_fix named))).
    + destruct (hdu_data (fix_unit verify_fix named)) as [p | e];
        cbn [bind]; [| discriminate].
      destruct p; cbn [slice_all bind]; intros H; inversion H; subst;
        eexists; (split; [apply dict_get_set_same | split; reflexivity]).
    + destruct (Table_read infile (hdu_name (fix_unit verify_fix named)));
        cbn [bind]; intros H; inversion H; subst.
      eexists. split; [apply dict_get_set_same | split; reflexivity].
Qed.

(** C2, at a unit with the cards HISTORY "bias subtracted", COMMENT "raw
    frame", HISTORY "flat fielded": [parse_fits_header] returns the comment
    lines second and the history lines third, and [read_fits] stores the
    comment line as the history of the unit and the two history lines as its
    comment. *)
Theorem read_fits_swaps_history_and_comment :
  parse_fits_header no_fix (hd new_PrimaryHDU lines_document)
  = ([], [VStr "raw frame"], [VStr "bias subtracted"; VStr "flat fielded"])
  /\ read_fits no_fix read_table_by_name lines_document
     = Return
         (mk_IdiHdulist lines_document
            [("PRIMARY",
              IdiPrimaryHdu "PRIMARY" []
                (* history *) [VStr "raw frame"]
                (* comment *) [VStr "bias subtracted"; VStr "flat fielded"])]).
Proof. split; reflexivity. Qed.

(** C9, on 5 March 2014 at 10:42: one line is added to the first unit, and
    its month field holds the minutes, 42, instead of the month, 03. *)
Theorem create_fits_creation_line :
  create_fits no_fix verify_ok hdulist_verify_ok same_unit empty_primary
    march_morning
  = Return
      [set_cards new_PrimaryHDU
         (hdu_cards new_PrimaryHDU
          ++ [("HISTORY", VStr "File written by fits2hdf 2014-42-05T10:42",
               VStr "")])%list]
  /\ creation_line march_morning
     = "File written by fits2hdf 2014-42-05T10:42"
  /\ strftime march_morning "%Y-%m-%dT%H:%M" = "2014-03-05T10:42".
Proof. repeat split. Qed.

(** ** Export followed by import *)

Lemma str_in_In (x : string) (l : list string) :
  str_in x l = true <-> In x l.
Proof.
  unfold str_in. rewrite existsb_exists. split.
  - intros [y [Hy He]]. apply String.eqb_eq in He. now subst.
  - intros H. exists x. split; [exact H | apply String.eqb_refl].
Qed.


Lemma dict_get_In_NoDup {V : Type} (d : dict V) (k : string) (v : V) :
  NoDup (keys d) -> In (k, v) d -> dict_get d k = Some v.
Proof.
  induction d as [| [k' v'] d IH]; simpl; intros Hnd Hin; [contradiction |].
  inversion Hnd as [| ? ? Hk Hnd']; subst.
  destruct Hin as [Heq | Hin].
  - inversion Heq; subst. now rewrite String.eqb_refl.
  - destruct (String.eqb_spec k k') as [-> | _]; [| auto].
    exfalso. apply Hk. change k' with (fst (k', v)). now apply in_map.
Qed.

Lemma fold_parse_card_dropped (cs : list card)
    (st : dict value * list value * list value) :
  (forall c, In c cs -> import_drops (strip (card_key c)) = true) ->
  fold_left parse_card cs st = st.
Proof.
  induction cs as [| [[k v] c] cs IH]; intros H; [reflexivity |].
  cbn [fold_left]. rewrite parse_card_dropped.
  - apply IH. intros c' Hc'. apply H. now right.
  - apply (H (k, v, c)). now left.
Qed.

Lemma fold_parse_card_history (lines : list value) (h : dict value)
    (co hi : list value) :
  fold_left parse_card (map history_card lines) (h, co, hi)
  = (h, co, (hi ++ lines)%list).
Proof.
  revert hi. induction lines as [| l lines IH]; intros hi; cbn [map fold_left].
  - now rewrite app_nil_r.
  - rewrite parse_card_history, IH, <- app_assoc. reflexivity.
Qed.

Lemma fold_parse_card_comment (lines : list value) (h : dict value)
    (co hi : list value) :
  fold_left parse_card (map comment_card lines) (h, co, hi)
  = (h, (co ++ lines)%list, hi).
Proof.
  revert co. induction lines as [| l lines IH]; intros co; cbn [map fold_left].
  - now rewrite app_nil_r.
  - rewrite parse_card_comment, IH, <- app_assoc. reflexivity.
Qed.

Lemma keys_entry_pairs (ts : list card) (x : string) :
  In x (keys (flat_map entry_pairs ts)) ->
  exists t, In t ts
            /\ (x = card_key t \/ x = card_key t ++ "_COMMENT").
Proof.
  induction ts as [| t ts IH]; simpl; [contradiction |].
  intros [H | [H | H]].
  - exists t. auto.
  - exists t. auto.
  - destruct (IH H) as [t' [Ht' Hx]]. exists t'. auto.
Qed.

Lemma NoDup_entry_pairs (ts : list card) :
  NoDup (map card_key ts) ->
  (forall t, In t ts -> endswith (card_key t) "_COMMENT" = false) ->
  NoDup (keys (flat_map entry_pairs ts)).
Proof.
  induction ts as [| t ts IH]; simpl; intros Hnd Hsuf; [constructor |].
  inversion Hnd as [| ? ? Hk Hnd']; subst.
  assert (Ht : endswith (card_key t) "_COMMENT" = false)
    by (apply Hsuf; now left).
  constructor; [| constructor].
  - simpl. intros [H | H].
    + symmetry in H. revert H. now apply not_endswith_append.
    + apply keys_entry_pairs in H as [t' [Ht' [H | H]]].
      * apply Hk. rewrite H. now apply in_map.
      * revert H. now apply not_endswith_append.
  - intros H. apply keys_entry_pairs in H as [t' [Ht' [H | H]]].
    + symmetry in H. revert H. apply not_endswith_append.
      apply Hsuf. now right.
    + apply append_inj_l in H. apply Hk. rewrite H. now apply in_map.
  - apply IH; auto.
Qed.

Lemma fold_dict_update_fresh {V : Type} (ps d : dict V) :
  NoDup (keys (d ++ ps)%list) -> fold_left dict_update ps d = (d ++ ps)%list.
Proof.
  revert d. induction ps as [| [k v] ps IH]; intros d Hnd; simpl.
  - now rewrite app_nil_r.
  - unfold dict_update at 2. cbn [fst snd].
    assert (Hk : ~ In k (keys d)).
    { unfold keys in Hnd. rewrite map_app in Hnd. cbn [map fst] in Hnd.
      apply NoDup_remove_2 in Hnd. intros Hin. apply Hnd.
      apply in_or_app. now left. }
    rewrite (dict_set_fresh d k v Hk), IH.
    + now rewrite <- app_assoc.
    + now rewrite <- app_assoc.
Qed.

(** User cards become entries, each followed by its companion. *)
Lemma fold_parse_card_user (ts : list card) (h : dict value)
    (co hi : list value) :
  (forall t, In t ts -> user_key (card_key t) = true) ->
  fold_left parse_card ts (h, co, hi)
  = (fold_left dict_update (flat_map entry_pairs ts) h, co, hi).
Proof.
  revert h. induction ts as [| [[k v] c] ts IH]; intros h Huser;
    [reflexivity |].
  cbn [fold_left flat_map]. rewrite fold_left_app.
  rewrite parse_card_user by (apply (Huser (k, v, c)); now left).
  rewrite IH by (intros t Ht; apply Huser; now right).
  reflexivity.
Qed.

(** The user entries of what the import makes of user cards are those
    cards. *)
Lemma user_entries_entry_pairs_in (d : dict value) (ts : list card) :
  (forall t, In t ts -> export_skips (card_key t) = false) ->
  (forall t, In t ts -> paired_comment d (card_key t) = snd t) ->
  map (fun kv => (fst kv, snd kv, paired_comment d (fst kv)))
    (filter (fun kv => negb (export_skips (fst kv)))
       (flat_map entry_pairs ts))
  = ts.
Proof.
  induction ts as [| [[k v] c] ts IH]; intros Hskip Hpc; [reflexivity |].
  cbn [flat_map entry_pairs card_key card_val fst snd app filter].
  pose proof (Hskip (k, v, c) (or_introl eq_refl)) as Hs.
  pose proof (Hpc (k, v, c) (or_introl eq_refl)) as Hp.
  cbn [card_key fst snd] in Hs, Hp.
  rewrite Hs, export_skips_companion. cbn [negb map fst snd].
  rewrite Hp, IH; [reflexivity | |]; intros t Ht; [apply Hskip | apply Hpc];
    now right.
Qed.

Lemma user_entries_entry_pairs (ts : list card) :
  NoDup (map card_key ts) ->
  (forall t, In t ts -> export_skips (card_key t) = false) ->
  user_entries (flat_map entry_pairs ts) = ts.
Proof.
  intros Hnd Hskip. unfold user_entries.
  apply user_entries_entry_pairs_in; [exact Hskip |].
  intros t Ht. unfold paired_comment.
  rewrite (dict_get_In_NoDup _ _ (snd t)); [reflexivity | |].
  - apply NoDup_entry_pairs; [exact Hnd |].
    intros t' Ht'. apply Hskip in Ht'. unfold export_skips in Ht'.
    destruct (endswith (card_key t') "_COMMENT"); [discriminate | reflexivity].
  - apply in_flat_map. exists t. split; [exact Ht |]. simpl. auto.
Qed.

Lemma parse_fits_header_cards (verify_fix : list card -> list card)
    (h : FitsHdu) :
  parse_fits_header verify_fix h = parse_cards (verify_fix (hdu_cards h)).
Proof. reflexivity. Qed.





Section RoundTrip.

Variable verify_fix : list card -> list card.
Variable hdu_verify : FitsHdu -> outcome unit.
Variable hdulist_verify : HDUList -> outcome unit.
Variable Table_read : HDUList -> string -> outcome Table.
Variable units_to_fits : py_str -> py_str.

(** The repair pass changes nothing of what the header import reads. *)
Hypothesis repair_keeps : forall cs, parse_cards (verify_fix cs) = parse_cards cs.














End RoundTrip.

Lemma Forall2_impl_In {A B : Type} (P Q : A -> B -> Prop) (l : list A)
    (l' : list B) :
  (forall x y, In x l -> P x y -> Q x y) ->
  Forall2 P l l' -> Forall2 Q l l'.
Proof.
  intros H Hall. induction Hall as [| x y l l' Hxy Hall IH]; constructor.
  - apply H; [now left | exact Hxy].
  - apply IH. intros x' y' Hin. apply H. now right.
Qed.


Lemma table_getitem_own (t : Table) (col : Column) :
  NoDup (map col_name t) -> In col t ->
  table_getitem t (col_name col) = Return col.
Proof.
  induction t as [| c t IH]; simpl; intros Hnd Hin; [contradiction |].
  inversion Hnd as [| ? ? Hnot Hnd']; subst.
  destruct Hin as [-> | Hin]; [now rewrite String.eqb_refl |].
  destruct (String.eqb_spec (col_name col) (col_name c)) as [Heq | _];
    [| now apply IH].
  exfalso. apply Hnot. rewrite <- Heq. now apply in_map.
Qed.

Lemma make_fits_cols_columns (units_to_fits : py_str -> py_str) (t sub : Table)
    (acc : list FitsColumn) :
  (forall col, In col sub -> table_getitem t (col_name col) = Return col) ->
  exists cols,
    make_fits_cols units_to_fits t (map col_name sub) acc
    = Return (acc ++ cols)%list
    /\ Forall2 (column_exported units_to_fits) sub cols.
Proof.
  revert acc. induction sub as [| col sub IH]; intros acc Hsub.
  - exists []. simpl. rewrite app_nil_r. split; constructor.
  - cbn [map make_fits_cols]. rewrite (Hsub col) by now left. cbn [bind].
    destruct (fits_format_code_lookup_returns (col_dtype col) (col_shape col))
      as [fmt Hfmt].
    rewrite Hfmt. cbn [bind].
    destruct (IH (acc ++ [mk_FitsColumn (col_name col) fmt
                            (units_to_fits (col_unit col)) (col_data col)])%list
                (fun c Hc => Hsub c (or_intror Hc)))
      as (cols & Hloop & Hall).
    eexists. split.
    + rewrite Hloop, <- app_assoc. reflexivity.
    + constructor; [| exact Hall]. unfold column_exported. cbn. auto.
Qed.












(** The invariants asked of the container are needed.  A primary unit is
    put in front of the document and written without its name: stored second
    and under another name, it comes back first and as PRIMARY.  An image
    with no element has size 0 and comes back as a primary unit. *)
Remark export_import_needs_invariants :
  unit_names (Return late_primary) = ["SCI"; "FIRST"]
  /\ unit_names (export_import late_primary) = ["PRIMARY"; "SCI"]
  /\ unit_variants (Return empty_image) = [Image]
  /\ unit_variants (export_import empty_image) = [Primary].
Proof. repeat split. Qed.

(** * Further properties *)

(** ** More on strings *)

Lemma rstrip_idempotent (s : string) : rstrip (rstrip s) = rstrip s.
Proof.
  induction s as [| c s IH]; [reflexivity |].
  cbn [rstrip]. destruct (rstrip s) as [| a r] eqn:Hr.
  - destruct (is_space c) eqn:Hc; cbn [rstrip]; [reflexivity |].
    now rewrite Hc.
  - cbn [rstrip]. cbn [rstrip] in IH. rewrite IH. reflexivity.
Qed.

Lemma rstrip_head (c : ascii) (s : string) :
  is_space c = false -> exists r, rstrip (String c s) = String c r.
Proof.
  intros Hc. cbn [rstrip]. destruct (rstrip s); [rewrite Hc |]; eauto.
Qed.

Lemma lstrip_head (s : string) :
  lstrip s = EmptyString
  \/ exists c r, lstrip s = String c r /\ is_space c = false.
Proof.
  induction s as [| c s IH]; [now left |].
  cbn [lstrip]. destruct (is_space c) eqn:Hc; [exact IH |].
  right. eauto.
Qed.

(** Stripping twice is stripping once. *)
Lemma strip_idempotent (s : string) : strip (strip s) = strip s.
Proof.
  unfold strip. destruct (lstrip_head s) as [He | (c & r & He & Hc)];
    rewrite He; [reflexivity |].
  destruct (rstrip_head c r Hc) as [r' Hr]. rewrite Hr.
  cbn [lstrip]. rewrite Hc, <- Hr. apply rstrip_idempotent.
Qed.

Lemma append_comment_neq (k : string) : k ++ "_COMMENT" <> k.
Proof.
  intros H. apply (f_equal String.length) in H.
  rewrite length_append in H. simpl in H. lia.
Qed.

(** ** More on the header import *)

Lemma keys_dict_set_inv {V : Type} (d : dict V) (k x : string) (v : V) :
  In x (keys (dict_set d k v)) -> x = k \/ In x (keys d).
Proof.
  induction d as [| [k' v'] d IH]; simpl.
  - intros [H | []]. now left.
  - destruct (String.eqb_spec k k') as [-> | _]; simpl.
    + intros [H | H]; auto.
    + intros [H | H]; [auto |]. destruct (IH H); auto.
Qed.

Lemma dict_get_set_other {V : Type} (d : dict V) (k q : string) (v : V) :
  q <> k -> dict_get (dict_set d k v) q = dict_get d q.
Proof.
  intros Hne. induction d as [| [k' v'] d IH]; simpl.
  - destruct (String.eqb_spec q k); [contradiction | reflexivity].
  - destruct (String.eqb_spec k k') as [-> | Hk]; simpl.
    + destruct (String.eqb_spec q k'); [contradiction | reflexivity].
    + destruct (String.eqb_spec q k'); [reflexivity | exact IH].
Qed.

(** What one card does to the entries: a stored name gets its value and its
    companion, any other card leaves the entries as they are. *)
Lemma parse_card_header (h : dict value) (co hi : list value)
    (k : string) (v c : value) :
  fst (fst (parse_card (h, co, hi) (k, v, c)))
  = if stored_name (strip k) then
      dict_set (dict_set h (strip k) v) (strip k ++ "_COMMENT") c
    else h.
Proof.
  unfold parse_card, stored_name, import_drops.
  destruct (str_in (strip k) [""; " "]); [reflexivity |].
  destruct (str_in (strip k) restricted_header_keywords); [reflexivity |].
  destruct (str_in (take 5 (strip k)) restricted_table_keywords);
    [reflexivity |].
  destruct (String.eqb (strip k) "HISTORY"); [reflexivity |].
  destruct (String.eqb (strip k) "COMMENT"); reflexivity.
Qed.

Lemma stored_name_not_dropped (card_id : string) :
  stored_name card_id = true ->
  import_drops card_id = false
  /\ card_id <> "HISTORY" /\ card_id <> "COMMENT".
Proof.
  unfold stored_name. intros H.
  apply andb_true_iff in H as [H Hc]. apply andb_true_iff in H as [Hd Hh].
  apply negb_true_iff in Hd, Hh, Hc.
  repeat split; [exact Hd | |]; now apply String.eqb_neq.
Qed.

Lemma reserved_name_short (k : string) :
  str_in k restricted_header_keywords = true -> (String.length k <= 8)%nat.
Proof.
  intros H. apply str_in_In in H. simpl in H.
  repeat (destruct H as [<- | H]; [simpl; lia |]). destruct H.
Qed.

Lemma substring_0_0 (s : string) : substring 0 0 s = EmptyString.
Proof. now destruct s. Qed.

(** A companion name is never taken for a table-derived keyword when the
    name itself is not. *)
Lemma companion_prefix (card_id : string) :
  card_id <> EmptyString ->
  str_in (take 5 card_id) restricted_table_keywords = false ->
  str_in (take 5 (card_id ++ "_COMMENT")) restricted_table_keywords = false.
Proof.
  intros Hne Hp.
  destruct card_id as [| a [| b [| c [| d [| e rest]]]]];
    [contradiction | | | | |
     unfold take in *; cbn [substring append] in Hp |- *;
     rewrite substring_0_0 in Hp |- *; exact Hp];
    clear Hne Hp; unfold str_in, take; cbn;
    repeat match goal with
           | |- context [Ascii.eqb ?x ?y] => destruct (Ascii.eqb x y)
           end; reflexivity.
Qed.

Lemma companion_not_dropped (card_id : string) :
  import_drops card_id = false ->
  import_drops (card_id ++ "_COMMENT") = false.
Proof.
  unfold import_drops. intros H.
  apply orb_false_iff in H as [H Hp]. apply orb_false_iff in H as [Hb Hr].
  assert (Hne : card_id <> EmptyString) by (intros ->; discriminate).
  assert (Hlen : (9 <= String.length (card_id ++ "_COMMENT"))%nat).
  { rewrite length_append. destruct card_id; [contradiction | simpl; lia]. }
  rewrite (companion_prefix _ Hne Hp), orb_false_r.
  apply orb_false_iff. split.
  - destruct (str_in (card_id ++ "_COMMENT") [""; " "]) eqn:E;
      [| reflexivity].
    apply str_in_In in E. simpl in E.
    destruct E as [E | [E | []]]; rewrite <- E in Hlen; simpl in Hlen; lia.
  - destruct (str_in (card_id ++ "_COMMENT") restricted_header_keywords)
      eqn:E; [| reflexivity].
    apply reserved_name_short in E. lia.
Qed.

Lemma fold_parse_card_keys (cs : list card) (h : dict value)
    (co hi : list value) (x : string) :
  In x (keys (fst (fst (fold_left parse_card cs (h, co, hi))))) ->
  In x (keys h)
  \/ exists c,
       In c cs /\ stored_name (strip (card_key c)) = true
       /\ (x = strip (card_key c) \/ x = strip (card_key c) ++ "_COMMENT").
Proof.
  revert h co hi. induction cs as [| [[k v] c] cs IH]; intros h co hi;
    [now left |].
  cbn [fold_left]. intros Hin.
  pose proof (parse_card_header h co hi k v c) as Hh.
  destruct (parse_card (h, co, hi) (k, v, c)) as [[h1 co1] hi1].
  cbn [fst] in Hh. subst h1.
  destruct (IH _ _ _ Hin) as [Hold | (c' & Hc' & Hs & Hx)].
  - destruct (stored_name (strip k)) eqn:Hs; [| now left].
    apply keys_dict_set_inv in Hold as [Hx | Hold].
    + right. exists (k, v, c). split; [now left |]. split; [exact Hs |].
      now right.
    + apply keys_dict_set_inv in Hold as [Hx | Hold]; [| now left].
      right. exists (k, v, c). split; [now left |]. split; [exact Hs |].
      now left.
  - right. exists c'. split; [now right | auto].
Qed.

(** X1.  Whatever the cards and the repair pass, [parse_fits_header] returns
    as its third result the values of the cards named [HISTORY] and as its
    second result the values of the cards named [COMMENT], each in the order
    of the cards; no other card adds a line. *)
Theorem parse_fits_header_line_order :
  forall (verify_fix : list card -> list card) (hdul : FitsHdu),
    snd (parse_fits_header verify_fix hdul)
    = history_lines (verify_fix (hdu_cards hdul))
    /\ snd (fst (parse_fits_header verify_fix hdul))
       = comment_lines (verify_fix (hdu_cards hdul)).
Proof.
  intros vf hdul. rewrite parse_fits_header_cards. unfold parse_cards.
  apply (fold_parse_card_lines _ [] [] []).
Qed.

(** X2.  No key of the entries that [parse_fits_header] returns is blank, a
    structural keyword, a name with a table-derived prefix, [HISTORY] or
    [COMMENT]: every key is the stripped name of a card that is none of
    these, or that name followed by [_COMMENT]. *)
Theorem parse_fits_header_keys :
  forall (verify_fix : list card -> list card) (hdul : FitsHdu) (key : string),
    In key (keys (fst (fst (parse_fits_header verify_fix hdul)))) ->
    import_drops key = false
    /\ key <> "HISTORY" /\ key <> "COMMENT"
    /\ exists c,
         In c (verify_fix (hdu_cards hdul))
         /\ (key = strip (card_key c)
             \/ key = strip (card_key c) ++ "_COMMENT").
Proof.
  intros vf hdul key Hin. rewrite parse_fits_header_cards in Hin.
  unfold parse_cards in Hin.
  apply fold_parse_card_keys in Hin as [[] | (c & Hc & Hs & Hx)].
  apply stored_name_not_dropped in Hs as (Hd & Hh & Hco).
  assert (Hlen : forall s, (String.length s <= 7)%nat ->
                           strip (card_key c) ++ "_COMMENT" <> s).
  { intros s Hs He. apply (f_equal String.length) in He.
    rewrite length_append in He. simpl in He. lia. }
  destruct Hx as [-> | ->].
  - repeat split; eauto.
  - split; [now apply companion_not_dropped |].
    split; [apply Hlen; simpl; lia |]. split; [apply Hlen; simpl; lia |].
    eauto.
Qed.

Lemma parse_fits_header_keys_witness :
  import_drops "OBSERVER_COMMENT" = false
  /\ "OBSERVER_COMMENT" <> "HISTORY" /\ "OBSERVER_COMMENT" <> "COMMENT"
  /\ exists c,
       In c (no_fix (hdu_cards
                       (mk_FitsHdu ImageHDU "SCI"
                          [("BITPIX", VInt 8, VStr "");
                           (" OBSERVER ", VStr "E. Hubble", VStr "who")]
                          (Return 0%N) true (Return PNone))))
       /\ ("OBSERVER_COMMENT" = strip (card_key c)
           \/ "OBSERVER_COMMENT" = strip (card_key c) ++ "_COMMENT").
Proof.
  apply (parse_fits_header_keys no_fix
           (mk_FitsHdu ImageHDU "SCI"
              [("BITPIX", VInt 8, VStr "");
               (" OBSERVER ", VStr "E. Hubble", VStr "who")]
              (Return 0%N) true (Return PNone))
           "OBSERVER_COMMENT").
  simpl. right. left. reflexivity.
Defined.

(** X3.  Blank and reserved cards have no effect on what [parse_fits_header]
    returns, whatever their values and wherever they stand: the result is
    that of the card list with those cards taken out. *)
Theorem parse_fits_header_skips_reserved :
  forall (verify_fix : list card -> list card) (hdul : FitsHdu),
    parse_fits_header verify_fix hdul
    = parse_cards (filter kept_card (verify_fix (hdu_cards hdul))).
Proof.
  intros vf hdul. rewrite parse_fits_header_cards. unfold parse_cards.
  generalize (@nil (string * value), @nil value, @nil value).
  induction (vf (hdu_cards hdul)) as [| [[k v] c] cs IH]; intros st;
    [reflexivity |].
  cbn [fold_left filter]. unfold kept_card at 1. cbn [card_key fst].
  destruct (import_drops (strip k)) eqn:Hd; cbn [negb].
  - rewrite parse_card_dropped by exact Hd. apply IH.
  - cbn [fold_left]. apply IH.
Qed.

Lemma fold_parse_card_get_other (cs : list card) (h : dict value)
    (co hi : list value) (q : string) :
  (forall c, In c cs ->
     q <> strip (card_key c) /\ q <> strip (card_key c) ++ "_COMMENT") ->
  dict_get (fst (fst (fold_left parse_card cs (h, co, hi)))) q
  = dict_get h q.
Proof.
  revert h co hi. induction cs as [| [[k v] c] cs IH]; intros h co hi Hq;
    [reflexivity |].
  cbn [fold_left].
  pose proof (parse_card_header h co hi k v c) as Hh.
  destruct (parse_card (h, co, hi) (k, v, c)) as [[h1 co1] hi1].
  cbn [fst] in Hh. subst h1.
  rewrite IH by (intros c' Hc'; apply Hq; now right).
  destruct (Hq (k, v, c) (or_introl eq_refl)) as [Hk Hkc].
  cbn [card_key fst] in Hk, Hkc.
  destruct (stored_name (strip k)); [| reflexivity].
  now rewrite !dict_get_set_other.
Qed.

(** X4.  The last card of a name wins: when a stored card is followed by no
    card that writes its name or its companion name, the entries returned
    hold the value of that card under its stripped name and its comment
    under that name followed by [_COMMENT], whatever cards of the same name
    came before. *)
Theorem parse_fits_header_last_card_wins :
  forall (verify_fix : list card -> list card) (hdul : FitsHdu)
         (pre : list card) (k : string) (v c : value) (post : list card),
    verify_fix (hdu_cards hdul) = (pre ++ (k, v, c) :: post)%list ->
    stored_name (strip k) = true ->
    (forall c', In c' post ->
       strip (card_key c') <> strip k
       /\ strip (card_key c') <> strip k ++ "_COMMENT"
       /\ strip (card_key c') ++ "_COMMENT" <> strip k) ->
    dict_get (fst (fst (parse_fits_header verify_fix hdul))) (strip k)
    = Some v
    /\ dict_get (fst (fst (parse_fits_header verify_fix hdul)))
         (strip k ++ "_COMMENT")
       = Some c.
Proof.
  intros vf hdul pre k v c post Hcards Hs Hpost.
  rewrite parse_fits_header_cards, Hcards. unfold parse_cards.
  rewrite fold_left_app. cbn [fold_left].
  destruct (fold_left parse_card pre ([], [], [])) as [[h1 co1] hi1].
  pose proof (parse_card_header h1 co1 hi1 k v c) as Hh.
  destruct (parse_card (h1, co1, hi1) (k, v, c)) as [[h2 co2] hi2].
  cbn [fst] in Hh. rewrite Hs in Hh. subst h2.
  split.
  - rewrite fold_parse_card_get_other.
    + rewrite dict_get_set_other
        by (intros H; symmetry in H; now apply append_comment_neq in H).
      apply dict_get_set_same.
    + intros c' Hc'. destruct (Hpost c' Hc') as (H1 & H2 & H3).
      split; congruence.
  - rewrite fold_parse_card_get_other; [apply dict_get_set_same |].
    intros c' Hc'. destruct (Hpost c' Hc') as (H1 & H2 & H3).
    split; [congruence |]. intros H. apply append_inj_l in H. congruence.
Qed.

Lemma parse_fits_header_last_card_wins_witness :
  dict_get
    (fst (fst (parse_fits_header no_fix
                 (mk_FitsHdu ImageHDU "SCI"
                    [("EXPTIME", VInt 10, VStr "first guess");
                     ("NAXIS", VInt 2, VStr "");
                     ("EXPTIME ", VInt 30, VStr "seconds");
                     ("HISTORY", VStr "EXPTIME fixed", VStr "")]
                    (Return 0%N) true (Return PNone)))))
    "EXPTIME"
  = Some (VInt 30)
  /\ dict_get
       (fst (fst (parse_fits_header no_fix
                    (mk_FitsHdu ImageHDU "SCI"
                       [("EXPTIME", VInt 10, VStr "first guess");
                        ("NAXIS", VInt 2, VStr "");
                        ("EXPTIME ", VInt 30, VStr "seconds");
                        ("HISTORY", VStr "EXPTIME fixed", VStr "")]
                       (Return 0%N) true (Return PNone)))))
       "EXPTIME_COMMENT"
     = Some (VStr "seconds").
Proof.
  apply (parse_fits_header_last_card_wins no_fix
           (mk_FitsHdu ImageHDU "SCI"
              [("EXPTIME", VInt 10, VStr "first guess");
               ("NAXIS", VInt 2, VStr "");
               ("EXPTIME ", VInt 30, VStr "seconds");
               ("HISTORY", VStr "EXPTIME fixed", VStr "")]
              (Return 0%N) true (Return PNone))
           [("EXPTIME", VInt 10, VStr "first guess");
            ("NAXIS", VInt 2, VStr "")]
           "EXPTIME " (VInt 30) (VStr "seconds")
           [("HISTORY", VStr "EXPTIME fixed", VStr "")]).
  - reflexivity.
  - reflexivity.
  - intros c' [<- | []]. repeat split; discriminate.
Defined.

(** ** Import of an exported header *)

Lemma not_skipped_no_suffix (k : string) :
  export_skips k = false -> endswith k "_COMMENT" = false.
Proof.
  unfold export_skips. destruct (endswith k "_COMMENT");
    [discriminate | reflexivity].
Qed.

(** Writing a name and its companion into entries that are pairs of names and
    companions is assigning the triple to the list of triples. *)
Lemma entry_pairs_header_set (ts : list card) (k : string) (v c : value) :
  (forall t, In t ts -> endswith (card_key t) "_COMMENT" = false) ->
  endswith k "_COMMENT" = false ->
  dict_set (dict_set (flat_map entry_pairs ts) k v) (k ++ "_COMMENT") c
  = flat_map entry_pairs (header_set ts k v c).
Proof.
  intros Hts Hk. induction ts as [| [[k0 v0] c0] ts IH].
  - cbn. destruct (String.eqb_spec (k ++ "_COMMENT") k) as [H | _];
      [now apply append_comment_neq in H | reflexivity].
  - assert (Hk0 : endswith k0 "_COMMENT" = false)
      by (apply (Hts (k0, v0, c0)); now left).
    cbn [flat_map entry_pairs card_key card_val fst snd app header_set
         dict_set].
    destruct (String.eqb_spec k k0) as [-> | Hne].
    + cbn [dict_set flat_map entry_pairs card_key card_val fst snd app].
      destruct (String.eqb_spec (k0 ++ "_COMMENT") k0) as [H | _];
        [now apply append_comment_neq in H |].
      now rewrite String.eqb_refl.
    + cbn [dict_set flat_map entry_pairs card_key card_val fst snd app].
      destruct (String.eqb_spec k (k0 ++ "_COMMENT")) as [H | _];
        [now apply not_endswith_append in H |].
      cbn [dict_set].
      destruct (String.eqb_spec (k ++ "_COMMENT") k0) as [H | _];
        [symmetry in H; now apply not_endswith_append in H |].
      destruct (String.eqb_spec (k ++ "_COMMENT") (k0 ++ "_COMMENT"))
        as [H | _]; [apply append_inj_l in H; contradiction |].
      rewrite IH; [reflexivity |].
      intros t Ht. apply Hts. now right.
Qed.

Lemma header_set_In (ts : list card) (k : string) (v c : value) (t : card) :
  In t (header_set ts k v c) -> t = (k, v, c) \/ In t ts.
Proof.
  induction ts as [| t0 ts IH]; simpl.
  - intros [H | []]. now left.
  - destruct (String.eqb k (card_key t0)); simpl.
    + intros [H | H]; auto.
    + intros [H | H]; [auto |]. destruct (IH H); auto.
Qed.

Lemma header_set_names (ts : list card) (k : string) (v c : value) :
  NoDup (map card_key ts) -> NoDup (map card_key (header_set ts k v c)).
Proof.
  induction ts as [| t0 ts IH]; simpl; intros Hnd.
  - constructor; [tauto | constructor].
  - inversion Hnd as [| ? ? Hnot Hnd']; subst.
    destruct (String.eqb_spec k (card_key t0)) as [-> | Hne]; simpl.
    + constructor; assumption.
    + constructor; [| auto].
      intros Hin. apply in_map_iff in Hin as [t [Ht Hin]].
      apply header_set_In in Hin as [-> | Hin].
      * apply Hne. now rewrite <- Ht.
      * apply Hnot. rewrite <- Ht. now apply in_map.
Qed.

(** The entries the import builds from cards whose stored names the export
    writes are pairs of a name and its companion, the names distinct, free
    of surrounding blanks, and written by the export. *)
Lemma fold_parse_card_pairs (cs ts : list card) (co hi : list value) :
  exportable_cards cs = true ->
  NoDup (map card_key ts) ->
  (forall t, In t ts ->
     user_key (card_key t) = true /\ export_skips (card_key t) = false) ->
  exists ts',
    fst (fst (fold_left parse_card cs (flat_map entry_pairs ts, co, hi)))
    = flat_map entry_pairs ts'
    /\ NoDup (map card_key ts')
    /\ (forall t, In t ts' ->
          user_key (card_key t) = true /\ export_skips (card_key t) = false).
Proof.
  revert ts co hi. induction cs as [| [[k v] c] cs IH]; intros ts co hi
    Hexp Hnd Hts; [exists ts; auto |].
  cbn [exportable_cards forallb card_key fst] in Hexp.
  apply andb_true_iff in Hexp as [Hcard Hexp].
  cbn [fold_left].
  set (st := parse_card _ _).
  assert (Hh : fst (fst st)
               = if stored_name (strip k) then
                   dict_set (dict_set (flat_map entry_pairs ts) (strip k) v)
                     (strip k ++ "_COMMENT") c
                 else flat_map entry_pairs ts)
    by apply parse_card_header.
  clearbody st. destruct st as [[h1 co1] hi1].
  cbn [fst] in Hh. subst h1.
  destruct (stored_name (strip k)) eqn:Hs; [| now apply IH].
  assert (Hskip : export_skips (strip k) = false).
  { unfold stored_name in Hs.
    destruct (import_drops (strip k)); [discriminate |].
    destruct (String.eqb (strip k) "HISTORY"); [discriminate |].
    destruct (String.eqb (strip k) "COMMENT"); [discriminate |].
    cbn in Hcard. now apply negb_true_iff in Hcard. }
  rewrite entry_pairs_header_set.
  - apply IH; [exact Hexp | now apply header_set_names |].
    intros t Ht. apply header_set_In in Ht as [-> | Ht]; [| now apply Hts].
    cbn [card_key fst]. split; [| exact Hskip].
    unfold user_key. rewrite strip_idempotent, String.eqb_refl.
    exact Hs.
  - intros t Ht. apply not_skipped_no_suffix. now apply Hts.
  - now apply not_skipped_no_suffix.
Qed.

Lemma parse_cards_entries_written (fresh ts : list card)
    (hi co : list value) :
  NoDup (map card_key ts) ->
  (forall t, In t ts ->
     user_key (card_key t) = true /\ export_skips (card_key t) = false) ->
  (forall c, In c fresh -> import_drops (strip (card_key c)) = true) ->
  parse_cards
    (fresh ++ ts ++ map history_card hi ++ map comment_card co)%list
  = (flat_map entry_pairs ts, co, hi).
Proof.
  intros Hnd Hts Hfresh. unfold parse_cards.
  rewrite !fold_left_app.
  rewrite (fold_parse_card_dropped fresh) by exact Hfresh.
  rewrite fold_parse_card_user by (intros t Ht; now apply Hts).
  rewrite fold_parse_card_history, fold_parse_card_comment.
  rewrite fold_dict_update_fresh; [reflexivity |].
  cbn [app]. apply NoDup_entry_pairs; [exact Hnd |].
  intros t Ht. apply not_skipped_no_suffix. now apply Hts.
Qed.

(** X5.  A header that the import produced is stable: when the entries of a
    unit are those [parse_fits_header] builds from a card list whose stored
    names the export writes, then writing the unit with [write_headers] into
    a unit of reserved cards and reading it with [parse_fits_header] returns
    exactly those entries, in the same order, with the comment lines and the
    history lines of the unit; the repair pass is only asked to leave what
    the import reads. *)
Theorem header_export_import_stable :
  forall (verify_fix : list card -> list card) (hduobj : FitsHdu)
         (idiobj : IdiHdu) (cs : list card),
    (forall cs', parse_cards (verify_fix cs') = parse_cards cs') ->
    (forall c, In c (hdu_cards hduobj) ->
       export_skips (card_key c) = true
       /\ import_drops (strip (card_key c)) = true) ->
    exportable_cards cs = true ->
    idi_header idiobj = fst (fst (parse_cards cs)) ->
    parse_fits_header verify_fix (write_headers verify_fix hduobj idiobj)
    = (idi_header idiobj, idi_comment idiobj, idi_history idiobj).
Proof.
  intros vf hduobj u cs Hvf Hres Hexp Hhdr.
  destruct (fold_parse_card_pairs cs [] [] [] Hexp (NoDup_nil _))
    as (ts & Hts & Hnd & Hgood); [intros t [] |].
  change (fst (fst (parse_cards cs)) = flat_map entry_pairs ts) in Hts.
  rewrite <- Hhdr in Hts.
  assert (Hkeys : NoDup (keys (idi_header u))).
  { rewrite Hts. apply NoDup_entry_pairs; [exact Hnd |].
    intros t Ht. apply not_skipped_no_suffix. now apply Hgood. }
  assert (Huser : user_entries (idi_header u) = ts).
  { rewrite Hts. apply user_entries_entry_pairs; [exact Hnd |].
    intros t Ht. now apply Hgood. }
  rewrite parse_fits_header_cards.
  rewrite (write_headers_cards vf hduobj u Hkeys
             (fun c Hc => proj1 (Hres c Hc))).
  cbn [fix_unit set_cards hdu_cards]. rewrite !Hvf, Huser.
  rewrite (parse_cards_entries_written (hdu_cards hduobj) ts
             (idi_history u) (idi_comment u) Hnd Hgood
             (fun c Hc => proj2 (Hres c Hc))).
  now rewrite Hts.
Qed.

Lemma header_export_import_stable_witness :
  parse_fits_header no_fix
    (write_headers no_fix new_ImageHDU
       (IdiImageHdu "SCI" PNone
          [("EXPTIME", VInt 30); ("EXPTIME_COMMENT", VStr "seconds");
           ("OBSERVER", VStr "E. Hubble"); ("OBSERVER_COMMENT", VStr "")]
          [VStr "bias subtracted"] [VStr "raw frame"]))
  = ([("EXPTIME", VInt 30); ("EXPTIME_COMMENT", VStr "seconds");
      ("OBSERVER", VStr "E. Hubble"); ("OBSERVER_COMMENT", VStr "")],
     [VStr "raw frame"], [VStr "bias subtracted"]).
Proof.
  apply (header_export_import_stable no_fix new_ImageHDU
           (IdiImageHdu "SCI" PNone
              [("EXPTIME", VInt 30); ("EXPTIME_COMMENT", VStr "seconds");
               ("OBSERVER", VStr "E. Hubble"); ("OBSERVER_COMMENT", VStr "")]
              [VStr "bias subtracted"] [VStr "raw frame"])
           [("EXPTIME", VInt 10, VStr "first guess");
            ("BITPIX", VInt 8, VStr "");
            (" OBSERVER", VStr "E. Hubble", VStr "");
            ("EXPTIME", VInt 30, VStr "seconds");
            ("HISTORY", VStr "h", VStr "")]).
  - intros cs'. reflexivity.
  - intros c Hc. simpl in Hc.
    repeat (destruct Hc as [<- | Hc]; [split; reflexivity |]). destruct Hc.
  - reflexivity.
  - reflexivity.
Defined.

Lemma fold_parse_card_assigns (cs ts : list card) (co hi : list value) :
  (forall t, In t ts -> endswith (card_key t) "_COMMENT" = false) ->
  (forall t, In t (stored_cards cs) ->
     endswith (card_key t) "_COMMENT" = false) ->
  fst (fst (fold_left parse_card cs (flat_map entry_pairs ts, co, hi)))
  = flat_map entry_pairs (fold_left set_triple (stored_cards cs) ts).
Proof.
  revert ts co hi. induction cs as [| [[k v] c] cs IH]; intros ts co hi
    Hts Hcs; [reflexivity |].
  cbn [fold_left].
  set (st := parse_card _ _).
  assert (Hh : fst (fst st)
               = if stored_name (strip k) then
                   dict_set (dict_set (flat_map entry_pairs ts) (strip k) v)
                     (strip k ++ "_COMMENT") c
                 else flat_map entry_pairs ts)
    by apply parse_card_header.
  clearbody st. destruct st as [[h1 co1] hi1].
  cbn [fst] in Hh. subst h1.
  unfold stored_cards in *. cbn [filter card_key fst] in *.
  destruct (stored_name (strip k)) eqn:Hs.
  - cbn [map fold_left card_key card_val fst snd] in *.
    unfold set_triple at 2. cbn [fst snd].
    assert (Hk : endswith (strip k) "_COMMENT" = false)
      by (apply (Hcs (strip k, v, c)); now left).
    rewrite entry_pairs_header_set by assumption.
    apply IH.
    + intros t Ht. apply header_set_In in Ht as [-> | Ht]; auto.
    + intros t Ht. apply Hcs. now right.
  - now apply IH.
Qed.

(** X6.  The entries follow card order and a later card of a name overwrites
    the earlier one where it stands: when no stored name ends in [_COMMENT],
    the entries [parse_fits_header] returns are, for the stored cards
    assigned one after the other by name, each name with its value followed
    at once by its companion with the comment. *)
Theorem parse_fits_header_entries_order :
  forall (verify_fix : list card -> list card) (hdul : FitsHdu),
    (forall t, In t (stored_cards (verify_fix (hdu_cards hdul))) ->
       endswith (card_key t) "_COMMENT" = false) ->
    fst (fst (parse_fits_header verify_fix hdul))
    = flat_map entry_pairs
        (fold_left set_triple (stored_cards (verify_fix (hdu_cards hdul)))
           []).
Proof.
  intros vf hdul Hcs. rewrite parse_fits_header_cards.
  apply (fold_parse_card_assigns _ [] [] []); [intros t [] | exact Hcs].
Qed.

Lemma parse_fits_header_entries_order_witness :
  fst (fst (parse_fits_header no_fix
              (mk_FitsHdu ImageHDU "SCI"
                 [("EXPTIME", VInt 10, VStr "first guess");
                  ("OBSERVER", VStr "E. Hubble", VStr "who");
                  ("NAXIS", VInt 2, VStr "");
                  ("EXPTIME", VInt 30, VStr "seconds")]
                 (Return 0%N) true (Return PNone))))
  = [("EXPTIME", VInt 30); ("EXPTIME_COMMENT", VStr "seconds");
     ("OBSERVER", VStr "E. Hubble"); ("OBSERVER_COMMENT", VStr "who")].
Proof.
  apply (parse_fits_header_entries_order no_fix
           (mk_FitsHdu ImageHDU "SCI"
              [("EXPTIME", VInt 10, VStr "first guess");
               ("OBSERVER", VStr "E. Hubble", VStr "who");
               ("NAXIS", VInt 2, VStr "");
               ("EXPTIME", VInt 30, VStr "seconds")]
              (Return 0%N) true (Return PNone))).
  intros t Ht. simpl in Ht.
  repeat (destruct Ht as [<- | Ht]; [reflexivity |]). destruct Ht.
Defined.

(** ** More on the import loop *)

Section ImportDocument.

Variable verify_fix : list card -> list card.
Variable Table_read : HDUList -> string -> outcome Table.

Lemma default_name_not_blank (ii : N) (h : FitsHdu) :
  is_blank (hdu_name (fst (default_name ii h))) = false.
Proof.
  unfold default_name. fold (is_blank (hdu_name h)).
  destruct (is_blank (hdu_name h)) eqn:Hb; [reflexivity | exact Hb].
Qed.

Lemma slice_all_inv (p q : payload) : slice_all p = Return q -> q = p.
Proof. destruct p; simpl; intros H; inversion H; reflexivity. Qed.

(** What one turn of the loop stores, and under which name. *)
Lemma read_fits_unit_stored (infile : HDUList) (ii ii1 : N)
    (d d1 : dict IdiHdu) (h h1 : FitsHdu) :
  read_fits_unit verify_fix Table_read infile ii d h = Return (ii1, h1, d1) ->
  h1 = fix_unit verify_fix (fst (default_name ii h))
  /\ exists u,
       d1 = dict_set d (hdu_name h1) u
       /\ lines_stored h1 u
       /\ classified Table_read infile h1 u.
Proof.
  unfold read_fits_unit.
  destruct (default_name ii h) as [named ii']. cbn [fst].
  rewrite (parse_fits_header_lines verify_fix named).
  set (hdr := fst (fst (parse_fits_header verify_fix named))).
  assert (Hhdr : hdr = fst (fst (parse_cards
                                   (hdu_cards (fix_unit verify_fix named)))))
    by reflexivity.
  clearbody hdr.
  set (h' := fix_unit verify_fix named) in *.
  assert (Hcards : verify_fix (hdu_cards named) = hdu_cards h')
    by reflexivity.
  rewrite Hcards. clearbody h'. clear Hcards.
  assert (Hlines : forall u,
            idi_header u = hdr ->
            idi_history u = comment_lines (hdu_cards h') ->
            idi_comment u = history_lines (hdu_cards h') ->
            lines_stored h' u).
  { intros u H1 H2 H3. unfold lines_stored. now rewrite H1, H2, H3, Hhdr. }
  destruct (is_image_or_primary (hdu_kind h')) eqn:Hk.
  - unfold try_except, build_image_unit.
    destruct (hdu_size h') as [size | e] eqn:Hsize; cbn [bind].
    + destruct (size =? 0)%N eqn:Hz; cbn [bind].
      * intros H; inversion H; subst. split; [reflexivity |].
        eexists. split; [reflexivity |]. split; [now apply Hlines |].
        unfold classified. now rewrite Hk, Hsize, Hz.
      * destruct (hdu_data h') as [p | e] eqn:Hd.
        -- destruct p as [| a | t | cols];
             destruct (hdu_is_image h') eqn:Him;
             cbn [bind slice_all exn_eqb];
             intros H; inversion H; subst; (split; [reflexivity |]);
             eexists; (split; [reflexivity |]);
             (split; [now apply Hlines |]);
             unfold classified; rewrite Hk, Hsize, Hz, Hd, ?Him;
             cbn [idi_variant idi_data]; auto.
        -- destruct (hdu_is_image h') eqn:Him;
             destruct e; cbn [bind exn_eqb];
             intros H; inversion H; subst; (split; [reflexivity |]);
             eexists; (split; [reflexivity |]);
             (split; [now apply Hlines |]);
             unfold classified; rewrite Hk, Hsize, Hz, Hd;
             cbn [idi_variant]; auto.
    + destruct e; cbn [exn_eqb bind]; intros H; inversion H; subst.
      split; [reflexivity |]. eexists. split; [reflexivity |].
      split; [now apply Hlines |].
      unfold classified. rewrite Hk, Hsize. cbn [idi_variant]. auto.
  - destruct (is_compHDU (hdu_kind h')) eqn:Hc.
    + destruct (hdu_data h') as [p | e] eqn:Hd; cbn [bind]; [| discriminate].
      destruct (slice_all p) as [q | e] eqn:Hsl; cbn [bind]; [| discriminate].
      assert (Hp : p <> PNone) by (intros ->; discriminate).
      apply slice_all_inv in Hsl. subst q.
      intros H; inversion H; subst. split; [reflexivity |].
      eexists. split; [reflexivity |]. split; [now apply Hlines |].
      unfold classified. rewrite Hk, Hc. cbn [idi_variant idi_data]. auto.
    + destruct (Table_read infile (hdu_name h')) as [t | e] eqn:Ht;
        cbn [bind]; intros H; inversion H; subst.
      split; [reflexivity |]. eexists. split; [reflexivity |].
      split; [now apply Hlines |].
      unfold classified. rewrite Hk, Hc.
      cbn [idi_variant idi_data]. split; [reflexivity |].
      exists t. now split.
Qed.

Lemma dict_set_keys_NoDup {V : Type} (d : dict V) (k : string) (v : V) :
  NoDup (keys d) -> NoDup (keys (dict_set d k v)).
Proof.
  induction d as [| [k' v'] d IH]; simpl; intros Hnd.
  - constructor; [tauto | constructor].
  - inversion Hnd as [| ? ? Hnot Hnd']; subst.
    destruct (String.eqb_spec k k') as [-> | Hne]; simpl.
    + now constructor.
    + constructor; [| auto]. intros Hin.
      apply keys_dict_set_inv in Hin as [Heq | Hin]; [congruence | tauto].
Qed.

Lemma dict_set_length {V : Type} (d : dict V) (k : string) (v : V) :
  (List.length (dict_set d k v) <= S (List.length d))%nat.
Proof.
  induction d as [| [k' v'] d IH]; simpl; [lia |].
  destruct (String.eqb k k'); simpl; lia.
Qed.

(** The container the loop returns, against the units it walked. *)
Lemma read_fits_loop_document (infile todo : HDUList) (ii : N)
    (seen : HDUList) (d : dict IdiHdu) (doc : IdiHdulist) :
  read_fits_loop verify_fix Table_read infile todo ii seen d = Return doc ->
  exists done,
    fits doc = (seen ++ done)%list
    /\ List.length done = List.length todo
    /\ (forall h1, In h1 done -> is_blank (hdu_name h1) = false)
    /\ (forall k, In k (keys (units doc)) ->
          In k (keys d) \/ In k (map hdu_name done))
    /\ (NoDup (keys d) -> NoDup (keys (units doc)))
    /\ (List.length (units doc) <= List.length d + List.length todo)%nat
    /\ (NoDup (keys d ++ map hdu_name done) ->
        exists added,
          units doc = (d ++ added)%list
          /\ Forall2 (entry_of Table_read infile) done added).
Proof.
  revert ii seen d. induction todo as [| h todo IH]; intros ii seen d Hl.
  - simpl in Hl. inversion Hl; subst. exists []. cbn [fits units].
    rewrite app_nil_r.
    split; [reflexivity |]. split; [reflexivity |].
    split; [intros h1 [] |]. split; [auto |]. split; [auto |].
    split; [lia |].
    intros _. exists []. rewrite app_nil_r. split; constructor.
  - simpl in Hl.
    destruct (read_fits_unit verify_fix Table_read infile ii d h)
      as [[[ii1 h1] d1] | e] eqn:Hu; cbn [bind] in Hl; [| discriminate].
    apply read_fits_unit_stored in Hu as (Hh1 & u & Hd1 & Hlines & Hclass).
    destruct (IH _ _ _ Hl)
      as (done & Hfits & Hlen & Hblank & Hkeys & Hnd & Hsize & Hadd).
    exists (h1 :: done). repeat split.
    + now rewrite Hfits, <- app_assoc.
    + simpl. now rewrite Hlen.
    + intros x [Heq | Hx]; [| now apply Hblank].
      rewrite <- Heq, Hh1. apply default_name_not_blank.
    + intros k Hk. destruct (Hkeys k Hk) as [Hin | Hin].
      * rewrite Hd1 in Hin. apply keys_dict_set_inv in Hin as [-> | Hin];
          [right; now left | now left].
      * right. now right.
    + intros Hd. apply Hnd. rewrite Hd1. now apply dict_set_keys_NoDup.
    + rewrite Hd1 in Hsize.
      pose proof (dict_set_length d (hdu_name h1) u). simpl. lia.
    + intros Hall. cbn [map] in Hall.
      assert (Hfresh : ~ In (hdu_name h1) (keys d)).
      { apply NoDup_remove_2 in Hall. intros Hin. apply Hall.
        apply in_or_app. now left. }
      rewrite (dict_set_fresh d _ u Hfresh) in Hd1.
      destruct Hadd as (added & Hunits & Hf2).
      { rewrite Hd1. unfold keys in *. rewrite map_app. cbn [map fst].
        now rewrite <- app_assoc. }
      exists ((hdu_name h1, u) :: added). split.
      * rewrite Hunits, Hd1, <- app_assoc. reflexivity.
      * constructor; [| exact Hf2]. unfold entry_of. cbn [fst snd]. auto.
Qed.

(** When the loop returns, every turn before had returned: for every unit of
    the document there are a counter and a container at which its turn
    returns. *)
Lemma read_fits_loop_turns (infile todo : HDUList) (ii : N)
    (seen : HDUList) (d : dict IdiHdu) (doc : IdiHdulist) (u : FitsHdu) :
  read_fits_loop verify_fix Table_read infile todo ii seen d = Return doc ->
  In u todo ->
  exists ii' d' r,
    read_fits_unit verify_fix Table_read infile ii' d' u = Return r.
Proof.
  revert ii seen d. induction todo as [| h todo IH]; intros ii seen d Hl Hin;
    [contradiction |].
  simpl in Hl.
  destruct (read_fits_unit verify_fix Table_read infile ii d h)
    as [[[ii1 h1] d1] | e] eqn:Hu; cbn [bind] in Hl; [| discriminate].
  destruct Hin as [<- | Hin]; [eauto | eauto].
Qed.

End ImportDocument.

(** X7.  The container [read_fits] returns keeps the invariants on names: no
    name twice, no blank name, every name the name some unit of the document
    has after defaulting; it has at most as many units as the document, and
    the document kept in [fits] has as many units as the one read. *)
Theorem read_fits_names_invariant :
  forall (verify_fix : list card -> list card)
         (Table_read : HDUList -> string -> outcome Table)
         (ff : HDUList) (doc : IdiHdulist),
    read_fits verify_fix Table_read ff = Return doc ->
    NoDup (keys (units doc))
    /\ (forall name, In name (keys (units doc)) ->
          is_blank name = false /\ In name (map hdu_name (fits doc)))
    /\ (List.length (units doc) <= List.length ff)%nat
    /\ List.length (fits doc) = List.length ff.
Proof.
  intros vf TR ff doc Hr. unfold read_fits in Hr.
  destruct (read_fits_loop_document vf TR _ _ _ _ _ _ Hr)
    as (done & Hfits & Hlen & Hblank & Hkeys & Hnd & Hsize & _).
  cbn [app] in Hfits. rewrite Hfits. repeat split.
  - apply Hnd. constructor.
  - destruct (Hkeys name H) as [[] | Hin].
    apply in_map_iff in Hin as [h1 [<- Hin]]. now apply Hblank.
  - destruct (Hkeys name H) as [[] | Hin]. exact Hin.
  - exact Hsize.
  - exact Hlen.
Qed.

Lemma read_fits_names_invariant_witness :
  NoDup (keys (units blank_names_import))
  /\ (forall name, In name (keys (units blank_names_import)) ->
        is_blank name = false
        /\ In name (map hdu_name (fits blank_names_import)))
  /\ (List.length (units blank_names_import)
      <= List.length blank_names_document)%nat
  /\ List.length (fits blank_names_import)
     = List.length blank_names_document.
Proof.
  apply (read_fits_names_invariant no_fix read_table_by_name
           blank_names_document blank_names_import).
  reflexivity.
Defined.

(** X8.  When the names of the units after defaulting are distinct, the
    container [read_fits] returns has one unit for each unit of the document,
    under that unit's name and in the order of the document. *)
Theorem read_fits_document_order :
  forall (verify_fix : list card -> list card)
         (Table_read : HDUList -> string -> outcome Table)
         (ff : HDUList) (doc : IdiHdulist),
    read_fits verify_fix Table_read ff = Return doc ->
    NoDup (map hdu_name (fits doc)) ->
    keys (units doc) = map hdu_name (fits doc)
    /\ List.length (units doc) = List.length ff.
Proof.
  intros vf TR ff doc Hr Hnames. unfold read_fits in Hr.
  destruct (read_fits_loop_document vf TR _ _ _ _ _ _ Hr)
    as (done & Hfits & Hlen & _ & _ & _ & _ & Hadd).
  cbn [app] in Hfits. rewrite Hfits in *.
  destruct (Hadd Hnames) as (added & Hunits & Hf2). cbn [app] in Hunits.
  rewrite Hunits. clear - Hf2 Hlen.
  rewrite <- Hlen. clear Hlen.
  induction Hf2 as [| h e done added (He & _) _ [IH1 IH2]]; [now split |].
  simpl. now rewrite He, IH1, IH2.
Qed.

Lemma read_fits_document_order_witness :
  keys (units blank_names_import) = map hdu_name (fits blank_names_import)
  /\ List.length (units blank_names_import)
     = List.length blank_names_document.
Proof.
  apply (read_fits_document_order no_fix read_table_by_name
           blank_names_document blank_names_import).
  - reflexivity.
  - simpl. repeat constructor; simpl; intuition discriminate.
Defined.

(** X9.  When the names after defaulting are distinct, every unit of the
    document is classified once, in document order, under its name.  An image
    or primary unit becomes a Primary unit exactly when its size is 0, or
    reading its size or its data raises [TypeError], or its data is None
    (slicing it raises [TypeError]); with a size other than 0 and data, it
    becomes an Image holding that data, or a Table holding it when the unit
    is not an image.  A compressed image becomes an Image holding its data,
    which is not None.  Any other unit becomes a Table holding the rows the
    table reader returns for its name. *)
Theorem read_fits_classification :
  forall (verify_fix : list card -> list card)
         (Table_read : HDUList -> string -> outcome Table)
         (ff : HDUList) (doc : IdiHdulist),
    read_fits verify_fix Table_read ff = Return doc ->
    NoDup (map hdu_name (fits doc)) ->
    Forall2
      (fun h entry =>
         fst entry = hdu_name h /\ classified Table_read ff h (snd entry))
      (fits doc) (units doc).
Proof.
  intros vf TR ff doc Hr Hnames. unfold read_fits in Hr.
  destruct (read_fits_loop_document vf TR _ _ _ _ _ _ Hr)
    as (done & Hfits & _ & _ & _ & _ & _ & Hadd).
  cbn [app] in Hfits. rewrite Hfits in *.
  destruct (Hadd Hnames) as (added & Hunits & Hf2). cbn [app] in Hunits.
  rewrite Hunits.
  apply (Forall2_impl_In (entry_of TR ff)); [| exact Hf2].
  intros h e _ (He & _ & Hc). now split.
Qed.

Lemma read_fits_classification_witness :
  Forall2
    (fun h entry =>
       fst entry = hdu_name h
       /\ classified read_table_by_name classes_document h (snd entry))
    (fits classes_import) (units classes_import).
Proof.
  apply (read_fits_classification no_fix read_table_by_name
           classes_document classes_import).
  - reflexivity.
  - simpl. repeat constructor; simpl; intuition discriminate.
Defined.

(** X10.  When the names after defaulting are distinct, every unit of the
    container has as entries the entries [parse_fits_header] builds from the
    cards of its unit of the document, as history the values of the
    [COMMENT] cards and as comment the values of the [HISTORY] cards, each
    in card order: [read_fits] binds the second result of
    [parse_fits_header] to [history] and the third to [comment]. *)
Theorem read_fits_entries_and_lines :
  forall (verify_fix : list card -> list card)
         (Table_read : HDUList -> string -> outcome Table)
         (ff : HDUList) (doc : IdiHdulist),
    read_fits verify_fix Table_read ff = Return doc ->
    NoDup (map hdu_name (fits doc)) ->
    Forall2 (fun h entry => lines_stored h (snd entry))
      (fits doc) (units doc).
Proof.
  intros vf TR ff doc Hr Hnames. unfold read_fits in Hr.
  destruct (read_fits_loop_document vf TR _ _ _ _ _ _ Hr)
    as (done & Hfits & _ & _ & _ & _ & _ & Hadd).
  cbn [app] in Hfits. rewrite Hfits in *.
  destruct (Hadd Hnames) as (added & Hunits & Hf2). cbn [app] in Hunits.
  rewrite Hunits.
  apply (Forall2_impl_In (entry_of TR ff)); [| exact Hf2].
  intros h e _ (_ & Hl & _). exact Hl.
Qed.

Lemma read_fits_entries_and_lines_witness :
  Forall2 (fun h entry => lines_stored h (snd entry))
    lines_document
    [("PRIMARY",
      IdiPrimaryHdu "PRIMARY" [] [VStr "raw frame"]
        [VStr "bias subtracted"; VStr "flat fielded"])].
Proof.
  apply (read_fits_entries_and_lines no_fix read_table_by_name
           lines_document
           (mk_IdiHdulist lines_document
              [("PRIMARY",
                IdiPrimaryHdu "PRIMARY" [] [VStr "raw frame"]
                  [VStr "bias subtracted"; VStr "flat fielded"])])).
  - reflexivity.
  - simpl. repeat constructor. simpl. tauto.
Defined.

(** X11.  A unit that cannot be imported fails the whole import: when the
    turn of the loop raises for some unit of the document, whatever the
    counter and the container, [read_fits] raises and returns no container,
    not even of the units before. *)
Theorem read_fits_unit_failure_aborts :
  forall (verify_fix : list card -> list card)
         (Table_read : HDUList -> string -> outcome Table)
         (ff : HDUList) (u : FitsHdu),
    In u ff ->
    (forall ii d,
       exists e,
         read_fits_unit verify_fix Table_read ff ii d u = Raise e) ->
    exists e, read_fits verify_fix Table_read ff = Raise e.
Proof.
  intros vf TR ff u Hin Hfail.
  destruct (read_fits vf TR ff) as [doc | e] eqn:Hr; [| eauto].
  exfalso. unfold read_fits in Hr.
  destruct (read_fits_loop_turns vf TR _ _ _ _ _ _ u Hr Hin)
    as (ii' & d' & r & Hturn).
  destruct (Hfail ii' d') as [e He]. congruence.
Qed.

Lemma read_fits_unit_failure_aborts_witness :
  exists e, read_fits no_fix read_table_by_name broken_document = Raise e.
Proof.
  apply (read_fits_unit_failure_aborts no_fix read_table_by_name
           broken_document
           (mk_FitsHdu CompImageHDU "COMPRESSED_IMAGE"
              [("XTENSION", VStr "BINTABLE", VStr "")]
              (Return 0%N) true (Return PNone))).
  - simpl. right. left. reflexivity.
  - intros ii d. exists TypeError.
    apply read_fits_unit_compressed_raises; reflexivity.
Defined.

(** ** More on the export *)

Section ExportDocument.

Variable verify_fix : list card -> list card.
Variable hdu_verify : FitsHdu -> outcome unit.
Variable hdulist_verify : HDUList -> outcome unit.
Variable units_to_fits : py_str -> py_str.

(** A turn of [create_fits] that returns has made the unit of the item and
    put it in front or at the end. *)
Lemma create_fits_unit_places (acc acc' : HDUList)
    (item : string * IdiHdu) :
  create_fits_unit verify_fix hdu_verify hdulist_verify units_to_fits acc item
  = Return acc' ->
  exists h,
    exported_unit verify_fix units_to_fits item = Return h
    /\ acc' = if goes_first item then h :: acc else (acc ++ [h])%list.
Proof.
  destruct item as [n u]. unfold create_fits_unit, exported_unit, goes_first.
  cbn [fst snd].
  destruct u as [nm hdr hi co | nm d hdr hi co | nm d hdr hi co].
  - intros H; inversion H; subst. eauto.
  - destruct (String.eqb n "PRIMARY"); intros H; inversion H; subst; eauto.
  - destruct d as [| a | t | cols]; try discriminate.
    destruct (make_fits_cols units_to_fits t (map col_name t) [])
      as [fits_cols | e]; cbn [bind]; [| discriminate].
    destruct (hdu_verify _); cbn [bind]; [| discriminate].
    destruct (hdulist_verify _); cbn [bind]; [| discriminate].
    intros H; inversion H; subst. eauto.
Qed.

(** Where the loop of [create_fits] leaves the units: those that go first in
    front of what was there, the last one first, the others behind, in
    order. *)
Lemma create_fits_loop_places (items : dict IdiHdu) (acc ff : HDUList) :
  create_fits_loop verify_fix hdu_verify hdulist_verify units_to_fits
    items acc = Return ff ->
  exists fronts backs,
    Forall2
      (fun item h => exported_unit verify_fix units_to_fits item = Return h)
      (filter goes_first items) fronts
    /\ Forall2
         (fun item h => exported_unit verify_fix units_to_fits item = Return h)
         (filter (fun item => negb (goes_first item)) items) backs
    /\ ff = (rev fronts ++ acc ++ backs)%list.
Proof.
  revert acc. induction items as [| item items IH]; intros acc Hloop.
  - simpl in Hloop. inversion Hloop; subst. exists [], []. simpl.
    rewrite app_nil_r. repeat split; constructor.
  - simpl in Hloop.
    destruct (create_fits_unit verify_fix hdu_verify hdulist_verify
                units_to_fits acc item) as [acc' |] eqn:Hu;
      cbn [bind] in Hloop; [| discriminate].
    apply create_fits_unit_places in Hu as [h [Hexp Hacc]].
    destruct (IH _ Hloop) as (fronts & backs & Hf & Hb & Hff).
    cbn [filter]. destruct (goes_first item); cbn [negb]; subst acc'.
    + exists (h :: fronts), backs. repeat split; [now constructor | exact Hb |].
      rewrite Hff. cbn [rev]. rewrite <- !app_assoc. reflexivity.
    + exists fronts, (h :: backs). repeat split; [exact Hf | now constructor |].
      rewrite Hff, <- !app_assoc. reflexivity.
Qed.

Lemma Forall2_reversed {A B : Type} (R : A -> B -> Prop) (l : list A)
    (l' : list B) :
  Forall2 R l l' -> Forall2 R (rev l) (rev l').
Proof.
  induction 1 as [| x y l l' Hxy _ IH]; [constructor |].
  cbn [rev]. apply Forall2_app; [exact IH | now repeat constructor].
Qed.

End ExportDocument.

(** X12.  [create_fits] makes one unit of the document for each unit of the
    container: on a container without units it raises [IndexError], because
    there is no first unit to stamp; and a document it returns has as many
    units as the container, hence at least one. *)
Theorem create_fits_one_unit_each :
  forall (verify_fix : list card -> list card)
         (hdu_verify : FitsHdu -> outcome unit)
         (hdulist_verify : HDUList -> outcome unit)
         (units_to_fits : py_str -> py_str)
         (hdul : IdiHdulist) (now : datetime),
    (units hdul = [] ->
     create_fits verify_fix hdu_verify hdulist_verify units_to_fits hdul now
     = Raise IndexError)
    /\ (forall ff,
          create_fits verify_fix hdu_verify hdulist_verify units_to_fits
            hdul now = Return ff ->
          List.length ff = List.length (units hdul) /\ ff <> []).
Proof.
  intros vf hv hlv utf hdul now. split.
  - intros Hempty. unfold create_fits. now rewrite Hempty.
  - intros ff Hexp. unfold create_fits in Hexp.
    destruct (create_fits_loop vf hv hlv utf (units hdul) []) as [l |] eqn:Hl;
      cbn [bind] in Hexp; [| discriminate].
    apply create_fits_loop_places in Hl as (fronts & backs & Hf & Hb & Hff).
    apply Forall2_length in Hf, Hb. cbn [app] in Hff.
    assert (Hlen : List.length l = List.length (units hdul)).
    { rewrite Hff, length_app, length_rev, <- Hf, <- Hb.
      rewrite <- length_app.
      clear. induction (units hdul) as [| item items IH]; [reflexivity |].
      cbn [filter]. destruct (goes_first item); cbn [negb];
        rewrite ?length_app in *; simpl in *; lia. }
    destruct l as [| first rest]; [discriminate |].
    inversion Hexp; subst ff. split; [exact Hlen | discriminate].
Qed.

Lemma create_fits_one_unit_each_witness :
  create_fits no_fix verify_ok hdulist_verify_ok same_unit
    (mk_IdiHdulist [] []) march_morning
  = Raise IndexError
  /\ List.length survey_fits = List.length (units survey)
  /\ survey_fits <> [].
Proof.
  destruct (create_fits_one_unit_each no_fix verify_ok hdulist_verify_ok
              same_unit (mk_IdiHdulist [] []) march_morning) as [Hempty _].
  destruct (create_fits_one_unit_each no_fix verify_ok hdulist_verify_ok
              same_unit survey march_morning) as [_ Hsome].
  split; [apply Hempty; reflexivity |].
  apply Hsome. reflexivity.
Defined.

(** X13.  The order of the document [create_fits] returns: the units made of
    Primary units and of images named PRIMARY come first, the one made last
    in front, then the units made of all other units in the order of the
    container; the first of them all carries the stamped line as its last
    card, and no other unit is changed after it is made. *)
Theorem create_fits_placement :
  forall (verify_fix : list card -> list card)
         (hdu_verify : FitsHdu -> outcome unit)
         (hdulist_verify : HDUList -> outcome unit)
         (units_to_fits : py_str -> py_str)
         (hdul : IdiHdulist) (now : datetime) (ff : HDUList),
    create_fits verify_fix hdu_verify hdulist_verify units_to_fits hdul now
    = Return ff ->
    exists h hs,
      Forall2
        (fun item h' =>
           exported_unit verify_fix units_to_fits item = Return h')
        (placed_order (units hdul)) (h :: hs)
      /\ ff = stamp (creation_line now) h :: hs.
Proof.
  intros vf hv hlv utf hdul now ff Hexp. unfold create_fits in Hexp.
  destruct (create_fits_loop vf hv hlv utf (units hdul) []) as [l |] eqn:Hl;
    cbn [bind] in Hexp; [| discriminate].
  apply create_fits_loop_places in Hl as (fronts & backs & Hf & Hb & Hff).
  cbn [app] in Hff.
  destruct l as [| first rest]; [discriminate |].
  inversion Hexp; subst ff. exists first, rest. split; [| reflexivity].
  rewrite Hff. unfold placed_order.
  apply Forall2_app; [now apply Forall2_reversed | exact Hb].
Qed.

Lemma create_fits_placement_witness :
  exists h hs,
    Forall2
      (fun item h' => exported_unit no_fix same_unit item = Return h')
      (placed_order (units late_primary)) (h :: hs)
    /\ match
         create_fits no_fix verify_ok hdulist_verify_ok same_unit
           late_primary march_morning
       with
       | Return ff => ff = stamp (creation_line march_morning) h :: hs
       | Raise _ => False
       end.
Proof.
  destruct (create_fits no_fix verify_ok hdulist_verify_ok same_unit
              late_primary march_morning) as [ff |] eqn:Hexp;
    [| discriminate Hexp].
  exact (create_fits_placement no_fix verify_ok hdulist_verify_ok same_unit
           late_primary march_morning ff Hexp).
Defined.

(** X14.  A Table unit whose columns have distinct names is exported as one
    binary table appended to the document, under the name of the unit, with
    one column definition for each column, in column order: the name of the
    column, the format code [fits_format_code_lookup] returns for its
    element type and shape (None when the type has no code: the export does
    not stop there), the unit string of [units_to_fits], and the data. *)
Theorem create_fits_table_columns :
  forall (verify_fix : list card -> list card)
         (hdu_verify : FitsHdu -> outcome unit)
         (hdulist_verify : HDUList -> outcome unit)
         (units_to_fits : py_str -> py_str)
         (hdulist hdulist' : HDUList) (name nm : string) (t : Table)
         (hdr : dict value) (hi co : list value),
    NoDup (map col_name t) ->
    create_fits_unit verify_fix hdu_verify hdulist_verify units_to_fits
      hdulist (name, IdiTableHdu nm (PRows t) hdr hi co)
    = Return hdulist' ->
    exists h cols,
      hdulist' = (hdulist ++ [h])%list
      /\ hdu_kind h = BinTableHDU
      /\ hdu_name h = name
      /\ hdu_data h = Return (PColumns cols)
      /\ Forall2 (column_exported units_to_fits) t cols.
Proof.
  intros vf hv hlv utf hdulist hdulist' name nm t hdr hi co Hnd Hunit.
  cbn [create_fits_unit] in Hunit.
  destruct (make_fits_cols_columns utf t t []
              (fun col Hc => table_getitem_own t col Hnd Hc))
    as (cols & Hcols & Hall).
  cbn [app] in Hcols. rewrite Hcols in Hunit. cbn [bind] in Hunit.
  destruct (hv _); cbn [bind] in Hunit; [| discriminate].
  destruct (hlv _); cbn [bind] in Hunit; [| discriminate].
  inversion Hunit; subst hdulist'.
  eexists. exists cols. split; [reflexivity |]. repeat split. exact Hall.
Qed.

Lemma create_fits_table_columns_witness :
  exists h cols,
    [new_PrimaryHDU; h] = ([new_PrimaryHDU] ++ [h])%list
    /\ hdu_kind h = BinTableHDU
    /\ hdu_name h = "SOURCES"
    /\ hdu_data h = Return (PColumns cols)
    /\ Forall2 (column_exported same_unit)
         [mk_Column "ID" PyNone
            (mk_ndarray (mk_dtype int32 4) [2%N] [VInt 7; VInt 9]);
          mk_Column "NOTE" (PyStr "")
            (mk_ndarray (mk_dtype unicode_ 16) [2%N] [VStr "a"; VStr "b"])]
         cols.
Proof.
  set (t := [mk_Column "ID" PyNone
               (mk_ndarray (mk_dtype int32 4) [2%N] [VInt 7; VInt 9]);
             mk_Column "NOTE" (PyStr "")
               (mk_ndarray (mk_dtype unicode_ 16) [2%N]
                  [VStr "a"; VStr "b"])]).
  assert (Hnd : NoDup (map col_name t))
    by (simpl; repeat constructor; simpl; intuition discriminate).
  destruct (create_fits_unit no_fix verify_ok hdulist_verify_ok same_unit
              [new_PrimaryHDU]
              ("SOURCES", IdiTableHdu "SOURCES" (PRows t) [] [] []))
    as [l |] eqn:Hunit; [| vm_compute in Hunit; discriminate Hunit].
  destruct (create_fits_table_columns no_fix verify_ok hdulist_verify_ok
              same_unit [new_PrimaryHDU] l "SOURCES" "SOURCES" t [] [] []
              Hnd Hunit) as (h & cols & Hl & Hrest).
  exists h, cols. split; [reflexivity | exact Hrest].
Defined.

Lemma append_empty_r (s : string) : s ++ "" = s.
Proof. induction s as [| c s IH]; simpl; [reflexivity | now rewrite IH]. Qed.

(** X15.  The line [create_fits] stamps never shows the month: for every
    time it is the fixed message, the year on four digits, the minutes where
    the month is meant, the day, the letter T, the hour and the minutes
    again; two times that differ in the month and the seconds only give the
    same line. *)
Theorem creation_line_shows_minutes :
  forall (y mo mo' d h mi s s' : N),
    creation_line (mk_datetime y mo d h mi s)
    = "File written by fits2hdf "
      ++ zero_pad 4 y ++ "-" ++ zero_pad 2 mi ++ "-" ++ zero_pad 2 d
      ++ "T" ++ zero_pad 2 h ++ ":" ++ zero_pad 2 mi
    /\ creation_line (mk_datetime y mo d h mi s)
       = creation_line (mk_datetime y mo' d h mi s').
Proof.
  intros y mo mo' d h mi s s'. split; [| reflexivity].
  rewrite <- (append_empty_r (zero_pad 2 mi)) at 2. reflexivity.
Qed.

Lemma header_set_reserved (cards : list card) (k : string) (v c : value) :
  export_skips k = false ->
  filter reserved_card (header_set cards k v c) = filter reserved_card cards.
Proof.
  intros Hk. induction cards as [| c0 cards IH]; simpl.
  - unfold reserved_card. cbn [card_key fst]. now rewrite Hk.
  - assert (H1 : reserved_card (k, v, c) = false) by exact Hk.
    destruct (String.eqb_spec k (card_key c0)) as [Heq | _]; simpl.
    + assert (H2 : reserved_card c0 = false)
        by (unfold reserved_card; now rewrite <- Heq).
      now rewrite H1, H2.
    + now rewrite IH.
Qed.

Lemma fold_set_triple_reserved (ts cards : list card) :
  (forall t, In t ts -> export_skips (card_key t) = false) ->
  filter reserved_card (fold_left set_triple ts cards)
  = filter reserved_card cards.
Proof.
  revert cards. induction ts as [| [[k v] c] ts IH]; intros cards Hts;
    [reflexivity |].
  cbn [fold_left]. rewrite IH by (intros t Ht; apply Hts; now right).
  unfold set_triple. cbn [fst snd]. apply header_set_reserved.
  apply (Hts (k, v, c)). now left.
Qed.

(** X16.  [write_headers] never touches a reserved card of the unit it writes
    to: whatever the entries hold, also under reserved names, the cards it
    hands to the repair pass have, among the cards whose name it skips,
    exactly those the unit had, unchanged and in the same order. *)
Theorem write_headers_keeps_reserved :
  forall (verify_fix : list card -> list card) (hduobj : FitsHdu)
         (idiobj : IdiHdu),
    let cards :=
      (fold_left set_triple (user_entries (idi_header idiobj))
         (hdu_cards hduobj)
       ++ map history_card (idi_history idiobj)
       ++ map comment_card (idi_comment idiobj))%list in
    write_headers verify_fix hduobj idiobj
    = fix_unit verify_fix (set_cards hduobj cards)
    /\ filter reserved_card cards = filter reserved_card (hdu_cards hduobj).
Proof.
  intros vf hduobj idiobj cards. subst cards.
  split; [apply write_headers_assigns |].
  rewrite !filter_app, fold_set_triple_reserved.
  - assert (Hh : forall l, filter reserved_card (map history_card l) = [])
      by (induction l; [reflexivity | exact IHl]).
    assert (Hc : forall l, filter reserved_card (map comment_card l) = [])
      by (induction l; [reflexivity | exact IHl]).
    now rewrite Hh, Hc, !app_nil_r.
  - intros t Ht. now apply user_entries_not_skipped in Ht as [Hs _].
Qed.
